(** * yare-bun-sync: the session / build / sync orchestration of [src/index.ts]

    The program is a command-line tool: it bundles an entrypoint file,
    obtains a session for the yare service (from a cached file, from the
    environment, or by asking the user), and uploads the bundle to the
    user's current games.

    The embedding is shallow.  Every function of [src/index.ts] becomes a
    computation in a small monad [M] that threads the state of the world
    (the disk, the environment variables, how often each collaborator was
    called), records what the program does to the outside (spinner
    messages, prompts, collaborator calls, disk writes) and ends in one of
    four ways: a value, an exception, [process.exit], or the fuel of the
    interactive retry loop running out.  The collaborators the program
    only calls (the bundler, the yare-sync library, the JSON codec of the
    runtime, the prompts, chalk) are the fields of a record [Collab]. *)

From Stdlib Require Import ZArith.
From stdpp Require Import gmap strings list.

Local Open Scope string_scope.
Local Open Scope list_scope.

(** ** Data model *)

(** [type Session = { user_id: string; session_id: string }] *)
Record Session := { user_id : string; session_id : string }.

(** An element of the array returned by [sync.getGames]:
    [{ server: string; id: string }]. *)
Record Game := { server : string; id : string }.

(** [type SyncOptions] *)
Record SyncOptions := {
  watch : bool;
  watchDir : string;
  noMinify : bool;
  file : string;
  env : string
}.

(** An element of [outputs] in the result of [Bun.build]: the path the
    bundler wrote and the text it wrote there. *)
Record Artifact := { path : string; body : string }.

(** Values that are thrown. *)
Inductive Exn :=
| SyntaxError                (* JSON.parse on a document that is not JSON *)
| TypeError (msg : string)   (* property access on undefined *)
| ENOENT (p : string)        (* a file operation on a path that is not on disk *)
| Failure (msg : string).    (* an error raised by a collaborator *)

(** What a call to a collaborator gives back. *)
Inductive Reply (A : Type) :=
| Returns (a : A)
| Raises (e : Exn).
Arguments Returns {A} a.
Arguments Raises {A} e.

(** A spinner made by [ora(text)]. *)
Record Ora := { text : string }.
Definition ora (t : string) : Ora := {| text := t |}.

Inductive SpinOp :=
| Start (t : option string)
| Succeed (msg : string)
| Fail (msg : string)
| Warn (msg : string)
| Clear.

Inductive Style := red | green | bold | dim.

(** What the program does that can be observed from outside, in the order
    it does it. *)
Inductive Event :=
| Spin (sp : Ora) (op : SpinOp)
| ConsoleError (e : option Exn)
| Prompt (label : string) (masked : bool) (answer : string)
| Select (options : list string) (header : string) (selectedIndex : nat)
| CallBuild (entrypoint : string) (minify : bool) (r : Reply (list Artifact))
| CallLogin (username password : string) (r : Reply Session)
| CallGetGames (uid : string) (r : Reply (list Game))
| CallSendCode (code : string) (games : list Game) (s : Session) (r : Reply bool)
| FsWrite (p contents : string)
| FsAppend (p contents : string)
| FsUnlink (p : string).

(** How often each collaborator has been called so far. *)
Record Calls := {
  builds : nat;
  logins : nat;
  prompts : nat;
  selections : nat;
  listings : nat;
  uploads : nat
}.

(** The state the program reads and writes: the files on disk (path to
    text), the environment variables ([Bun.env]) and the call counters. *)
Record World := {
  fs : gmap string string;
  environ : gmap string string;
  calls : Calls
}.

(** The collaborators.  A collaborator that may answer differently each
    time takes the number of calls made to it before this one.
    [JSON_parse] follows the type the source gives to what it reads from
    the session file ([Session | null]): a text that parses is a session
    object, a text that does not makes [JSON.parse] throw.
    [append_error] is the error [fs.appendFileSync] meets when it opens a
    path (its directory is missing, the file may not be written), given
    the files on disk; the disk of [World] holds files only. *)
Record Collab := {
  os_tmpdir : string;
  path_resolve : string -> string -> string;
  JSON_parse : string -> option Session;   (* None: JSON.parse throws *)
  JSON_stringify : Session -> string;
  chalk : list Style -> string -> string;
  verifySession : Session -> bool;
  login_reply : nat -> string -> string -> Reply Session;
  getGames_reply : nat -> string -> Reply (list Game);
  sendCode_reply : nat -> string -> list Game -> Session -> Reply bool;
  build_reply : nat -> string -> bool -> Reply (list Artifact);
  prompt_reply : nat -> string -> string;
  selection_reply : nat -> nat;
  append_error : gmap string string -> string -> option Exn
}.

(** ** The monad *)

Inductive Result (A : Type) :=
| Done (a : A)          (* the function returned [a] *)
| Thrown (e : Exn)      (* an exception left the function *)
| Exited (code : Z)     (* process.exit(code) *)
| OutOfFuel.            (* the retry loop was cut off *)
Arguments Done {A} a.
Arguments Thrown {A} e.
Arguments Exited {A} code.
Arguments OutOfFuel {A}.

Record Run (A : Type) := MkRun {
  result : Result A;
  world : World;
  events : list Event
}.
Arguments MkRun {A} result world events.
Arguments result {A} r.
Arguments world {A} r.
Arguments events {A} r.

Definition M (A : Type) : Type := World -> Run A.

Definition ret {A} (a : A) : M A := fun w => MkRun (Done a) w [].

Definition bind {A B} (m : M A) (f : A -> M B) : M B := fun w =>
  match m w with
  | MkRun (Done a) w1 l1 =>
      match f a w1 with
      | MkRun r w2 l2 => MkRun r w2 (l1 ++ l2)
      end
  | MkRun (Thrown e) w1 l1 => MkRun (Thrown e) w1 l1
  | MkRun (Exited c) w1 l1 => MkRun (Exited c) w1 l1
  | MkRun OutOfFuel w1 l1 => MkRun OutOfFuel w1 l1
  end.

Notation "x <- m ;; k" := (bind m (fun x => k))
  (at level 100, m at next level, right associativity).
Notation "m ;; k" := (bind m (fun _ => k))
  (at level 100, right associativity).

Definition throw {A} (e : Exn) : M A := fun w => MkRun (Thrown e) w [].
Definition process_exit {A} (code : Z) : M A := fun w => MkRun (Exited code) w [].
Definition out_of_fuel {A} : M A := fun w => MkRun OutOfFuel w [].
Definition emit (ev : Event) : M unit := fun w => MkRun (Done tt) w [ev].

(** [try { m } catch (e) { h e }]: only an exception is caught; the end of
    the process is not. *)
Definition try_catch {A} (m : M A) (h : Exn -> M A) : M A := fun w =>
  match m w with
  | MkRun (Thrown e) w1 l1 =>
      match h e w1 with
      | MkRun r w2 l2 => MkRun r w2 (l1 ++ l2)
      end
  | r => r
  end.

(** ** State updates *)

Definition with_fs (f : gmap string string) (w : World) : World :=
  {| fs := f; environ := environ w; calls := calls w |}.

Definition with_calls (c : Calls) (w : World) : World :=
  {| fs := fs w; environ := environ w; calls := c |}.

Definition tick_build (c : Calls) : Calls :=
  {| builds := S (builds c); logins := logins c; prompts := prompts c;
     selections := selections c; listings := listings c; uploads := uploads c |}.
Definition tick_login (c : Calls) : Calls :=
  {| builds := builds c; logins := S (logins c); prompts := prompts c;
     selections := selections c; listings := listings c; uploads := uploads c |}.
Definition tick_prompt (c : Calls) : Calls :=
  {| builds := builds c; logins := logins c; prompts := S (prompts c);
     selections := selections c; listings := listings c; uploads := uploads c |}.
Definition tick_selection (c : Calls) : Calls :=
  {| builds := builds c; logins := logins c; prompts := prompts c;
     selections := S (selections c); listings := listings c; uploads := uploads c |}.
Definition tick_listing (c : Calls) : Calls :=
  {| builds := builds c; logins := logins c; prompts := prompts c;
     selections := selections c; listings := S (listings c); uploads := uploads c |}.
Definition tick_upload (c : Calls) : Calls :=
  {| builds := builds c; logins := logins c; prompts := prompts c;
     selections := selections c; listings := listings c; uploads := S (uploads c) |}.

(** JavaScript truthiness of a value of type [string | undefined]: the
    empty string and undefined are falsy. *)
Definition truthy (v : option string) : bool :=
  match v with
  | Some s => negb (String.eqb s EmptyString)
  | None => false
  end.

Definition newline : string := String (Ascii.ascii_of_nat 10) EmptyString.

(** ** The runtime and the collaborators as computations *)

Section Program.

Variable C : Collab.

(** [path.join(a, b)] for a directory [a] without a trailing separator,
    which is what [os.tmpdir()] returns. *)
Definition path_join (a b : string) : string := a +:+ "/" +:+ b.

(** [const SESSION_FILE_PATH = path.join(os.tmpdir(), ...)] *)
Definition SESSION_FILE_PATH : string :=
  path_join (os_tmpdir C) "yare-sync-last-session.json".

(** [Bun.file(p).exists()] *)
Definition Bun_file_exists (p : string) : M bool := fun w =>
  MkRun (Done (match fs w !! p with Some _ => true | None => false end)) w [].

(** [Bun.file(p).text()]: reading a file that is not there throws. *)
Definition Bun_file_text (p : string) : M string := fun w =>
  match fs w !! p with
  | Some t => MkRun (Done t) w []
  | None => MkRun (Thrown (ENOENT p)) w []
  end.

(** [Bun.file(p).json()]: the text of the file through [JSON.parse]. *)
Definition Bun_file_json (p : string) : M Session :=
  t <- Bun_file_text p ;;
  match JSON_parse C t with
  | Some s => ret s
  | None => throw SyntaxError
  end.

(** [Bun.write(p, t)]: the file at [p] now holds [t]. *)
Definition Bun_write (p t : string) : M unit := fun w =>
  MkRun (Done tt) (with_fs (<[p := t]> (fs w)) w) [FsWrite p t].

(** [fs.appendFileSync(p, t)]: throws when the path cannot be opened;
    creates the file when it is not there. *)
Definition fs_appendFileSync (p t : string) : M unit := fun w =>
  match append_error C (fs w) p with
  | Some e => MkRun (Thrown e) w []
  | None =>
      MkRun (Done tt)
            (with_fs (<[p := default EmptyString (fs w !! p) +:+ t]> (fs w)) w)
            [FsAppend p t]
  end.

(** [fs.unlinkSync(p)]: throws when there is no file at [p]. *)
Definition fs_unlinkSync (p : string) : M unit := fun w =>
  match fs w !! p with
  | Some _ => MkRun (Done tt) (with_fs (delete p (fs w)) w) [FsUnlink p]
  | None => MkRun (Thrown (ENOENT p)) w []
  end.

(** [Bun.env.NAME] *)
Definition Bun_env (name : string) : M (option string) := fun w =>
  MkRun (Done (environ w !! name)) w [].

(** The bundler writes its outputs to disk before it returns them. *)
Definition write_outputs (outs : list Artifact) (d : gmap string string)
  : gmap string string :=
  foldl (fun d a => <[path a := body a]> d) d outs.

(** [Bun.build({ entrypoints: [entry], outdir: "./dist", minify })] *)
Definition Bun_build (entry : string) (minify : bool) : M (list Artifact) := fun w =>
  let r := build_reply C (builds (calls w)) entry minify in
  let w1 := with_calls (tick_build (calls w)) w in
  match r with
  | Returns outs =>
      MkRun (Done outs) (with_fs (write_outputs outs (fs w1)) w1)
            [CallBuild entry minify r]
  | Raises e => MkRun (Thrown e) w1 [CallBuild entry minify r]
  end.

(** [sync.login(username, password)] *)
Definition sync_login (username password : string) : M Session := fun w =>
  let r := login_reply C (logins (calls w)) username password in
  let w1 := with_calls (tick_login (calls w)) w in
  match r with
  | Returns s => MkRun (Done s) w1 [CallLogin username password r]
  | Raises e => MkRun (Thrown e) w1 [CallLogin username password r]
  end.

(** [sync.getGames(user_id)] *)
Definition sync_getGames (uid : string) : M (list Game) := fun w =>
  let r := getGames_reply C (listings (calls w)) uid in
  let w1 := with_calls (tick_listing (calls w)) w in
  match r with
  | Returns gs => MkRun (Done gs) w1 [CallGetGames uid r]
  | Raises e => MkRun (Thrown e) w1 [CallGetGames uid r]
  end.

(** [sync.sendCode(code, games, session)] *)
Definition sync_sendCode (code : string) (games : list Game) (s : Session)
  : M bool := fun w =>
  let r := sendCode_reply C (uploads (calls w)) code games s in
  let w1 := with_calls (tick_upload (calls w)) w in
  match r with
  | Returns b => MkRun (Done b) w1 [CallSendCode code games s r]
  | Raises e => MkRun (Thrown e) w1 [CallSendCode code games s r]
  end.

(** [createPrompt(label, { required: true, echoMode })]: the value typed. *)
Definition createPrompt (label : string) (masked : bool) : M string := fun w =>
  let v := prompt_reply C (prompts (calls w)) label in
  MkRun (Done v) (with_calls (tick_prompt (calls w)) w) [Prompt label masked v].

(** [createSelection(options, { headerText }).selectedIndex] *)
Definition createSelection (options : list string) (header : string)
  : M nat := fun w =>
  let i := selection_reply C (selections (calls w)) in
  MkRun (Done i) (with_calls (tick_selection (calls w)) w)
        [Select options header i].

(** [spinner.op(...)] and [spinner?.op(...)] *)
Definition spin (sp : Ora) (op : SpinOp) : M unit := emit (Spin sp op).

Definition spin_opt (sp : option Ora) (op : SpinOp) : M unit :=
  match sp with
  | Some s => spin s op
  | None => ret tt
  end.

Definition console_error (e : option Exn) : M unit := emit (ConsoleError e).

(** ** The functions of [src/index.ts] *)

(** [getExistingSession], lines 22-32. *)
Definition getExistingSession : M (option Session) :=
  ex <- Bun_file_exists SESSION_FILE_PATH ;;
  if ex : bool then
    session <- Bun_file_json SESSION_FILE_PATH ;;
    if verifySession C session then ret (Some session)
    else ret None
  else ret None.

(** [saveSession], lines 94-95. *)
Definition saveSession (session : Session) : M unit :=
  Bun_write SESSION_FILE_PATH (JSON_stringify C session).

(** [getCreds], lines 43-52. *)
Definition getCreds : M (string * string) :=
  username <- createPrompt "Yare Username: " false ;;
  password <- createPrompt "Password: " true ;;
  ret (username, password).

(** The loop [while (!session) { ... }] of lines 53-65.  [username] and
    [password] are the variables of the enclosing function, assigned in
    every round; the loop is left with the values of the round in which
    [sync.login] returned.  A round whose login throws reports the error
    and leaves [session] undefined, so the loop goes round again; a
    session that [sync.login] returns is an object, which is truthy, so
    the loop ends.  [fuel] bounds the number of rounds. *)
Fixpoint login_loop (fuel : nat) (spinner : option Ora)
  : M (string * string * Session) :=
  match fuel with
  | O => out_of_fuel
  | S fuel' =>
      creds <- getCreds ;;
      session <- try_catch
                   (s <- sync_login (fst creds) (snd creds) ;; ret (Some s))
                   (fun _ =>
                      console_error None ;;
                      spin_opt spinner (Fail "Error logging in. Try again.") ;;
                      ret None) ;;
      match session with
      | Some s => ret (fst creds, snd creds, s)
      | None => login_loop fuel' spinner
      end
  end.

Definition save_creds_header : string :=
  newline +:+ chalk C [bold; green] "Successfully logged in!"
  +:+ newline +:+ newline +:+ "Would you like to save your credentials?"
  +:+ newline
  +:+ chalk C [dim] "Your password will be stored in plain text in a .env file.".

Definition creds_entry (username password : string) : string :=
  "# Yare Credentials" +:+ newline
  +:+ "YARE_LOGIN=" +:+ username +:+ newline
  +:+ "YARE_PASSWORD=" +:+ password.

(** [login], lines 34-92. *)
Definition login (fuel : nat) (envFilePath : string) (spinner : option Ora)
  : M Session :=
  YARE_LOGIN <- Bun_env "YARE_LOGIN" ;;
  YARE_PASSWORD <- Bun_env "YARE_PASSWORD" ;;
  if negb (truthy YARE_LOGIN) || negb (truthy YARE_PASSWORD) then
    spin_opt spinner (Warn "Couldn't find login credentials.") ;;
    r <- login_loop fuel spinner ;;
    let '(username, password, session) := r in
    spin_opt spinner Clear ;;
    i <- createSelection ["Yes"; "No"] save_creds_header ;;
    let saveCreds := Nat.eqb i 0 in
    (if saveCreds then
       fs_appendFileSync (path_resolve C "." envFilePath)
                         (creds_entry username password)
     else ret tt) ;;
    saveSession session ;;
    ret session
  else
    session <- sync_login (default EmptyString YARE_LOGIN)
                          (default EmptyString YARE_PASSWORD) ;;
    saveSession session ;;
    ret session.

(** [outputs[0].path], line 127: on an empty array [outputs[0]] is
    undefined and reading its [path] throws a TypeError. *)
Definition first_output_path (outputs : list Artifact) : M string :=
  match outputs with
  | a :: _ => ret (path a)
  | [] => throw (TypeError "outputs[0] is undefined")
  end.

Definition buildSpinner : Ora := ora "Building".
Definition loginSpinner : Ora := ora "Logging In".
Definition syncSpinner : Ora := ora "Syncing".

Definition entrypoint_missing_message (file : string) : string :=
  chalk C [red; bold] "Build failed:" +:+ " Could not find entrypoint "
  +:+ chalk C [bold] file +:+ ".".

Definition build_failed_message : string :=
  chalk C [red; bold] "Build failed:" +:+ " Unexpected error".

(** Lines 119-133: the [try]/[catch] around the bundler.  The value is the
    path held by [distFile]; the file is read only when it is uploaded. *)
Definition build_stage (file : string) (noMinify : bool) : M string :=
  distFile <- try_catch
                (outputs <- Bun_build file (negb noMinify) ;;
                 first_output_path outputs)
                (fun e =>
                   spin buildSpinner (Fail build_failed_message) ;;
                   console_error (Some e) ;;
                   process_exit 1) ;;
  spin buildSpinner (Succeed "Built") ;;
  ret distFile.

(** Lines 135-145: the cached session if there is one, a login if not. *)
Definition session_stage (fuel : nat) (env : string) : M Session :=
  spin loginSpinner (Start None) ;;
  cached <- getExistingSession ;;
  session <- match cached with
             | Some s => ret s
             | None =>
                 spin loginSpinner Clear ;;
                 login fuel env (Some loginSpinner)
             end ;;
  spin loginSpinner
       (Succeed ("Logged in as " +:+ chalk C [green; bold] (user_id session))) ;;
  ret session.

(** [g ? `${g.server}/${g.id}` : g] for a game object, which is truthy. *)
Definition game_label (g : Game) : string := server g +:+ "/" +:+ id g.

(** The message of line 163-164:
    ["Uploaded ...: " + games.map(...).join(", ")]. *)
Definition uploaded_message (games : list Game) : string :=
  "Uploaded your code to these games: "
  +:+ String.concat ", " (map game_label games).

(** Lines 147-169: list the games and upload. *)
Definition sync_stage (distFile : string) (session : Session) : M unit :=
  spin syncSpinner (Start None) ;;
  games <- sync_getGames (user_id session) ;;
  if Nat.eqb (length games) 0 then
    spin syncSpinner (Warn "No current games.")
  else
    code <- Bun_file_text distFile ;;
    successful <- sync_sendCode code games session ;;
    if successful : bool then
      spin syncSpinner (Succeed (uploaded_message games))
    else
      spin syncSpinner (Fail "Upload to yare failed.").

(** [buildAndSync], lines 105-170. *)
Definition buildAndSync (fuel : nat) (o : SyncOptions) : M unit :=
  spin buildSpinner (Start None) ;;
  ex <- Bun_file_exists (file o) ;;
  if negb ex then
    spin buildSpinner (Fail (entrypoint_missing_message (file o))) ;;
    process_exit 9
  else
    distFile <- build_stage (file o) (noMinify o) ;;
    session <- session_stage fuel (env o) ;;
    sync_stage distFile session.

(** The action of the [logout] command, lines 208-213. *)
Definition logout : M unit :=
  let spinner := ora "Log out" in
  spin spinner (Start (Some "Logging out")) ;;
  fs_unlinkSync SESSION_FILE_PATH ;;
  spin spinner (Succeed "Logged out").

End Program.

(** ** Reading the record of a run *)

Definition is_build_call (e : Event) : bool :=
  match e with CallBuild _ _ _ => true | _ => false end.

Definition is_login_call (e : Event) : bool :=
  match e with CallLogin _ _ _ => true | _ => false end.

Definition is_listing_call (e : Event) : bool :=
  match e with CallGetGames _ _ => true | _ => false end.

Definition is_upload_call (e : Event) : bool :=
  match e with CallSendCode _ _ _ _ => true | _ => false end.

(** The user is asked something: a prompt or a selection. *)
Definition is_interaction (e : Event) : bool :=
  match e with Prompt _ _ _ | Select _ _ _ => true | _ => false end.

(** [Bun.write] on the session file. *)
Definition is_session_write (C : Collab) (e : Event) : bool :=
  match e with
  | FsWrite p _ => String.eqb p (SESSION_FILE_PATH C)
  | _ => false
  end.

(** The events the session stage can produce: everything but calls to
    the bundler, to [getGames] and to [sendCode]. *)
Definition is_session_event (e : Event) : bool :=
  negb (is_build_call e || is_listing_call e || is_upload_call e).

Definition count_events (p : Event -> bool) (l : list Event) : nat :=
  length (List.filter p l).

(** A run that comes after the events [evs]. *)
Definition after {A} (evs : list Event) (r : Run A) : Run A :=
  MkRun (result r) (world r) (evs ++ events r).

(** The events of a round of the retry loop: prompts, login calls and
    reports. *)
Definition is_loop_event (e : Event) : bool :=
  match e with
  | Prompt _ _ _ | CallLogin _ _ _ | ConsoleError _ | Spin _ _ => true
  | _ => false
  end.

(** Every event of every run of [m] satisfies [P]. *)
Definition produces {A} (P : Event -> Prop) (m : M A) : Prop :=
  forall w, Forall P (events (m w)).

(** The world after one round of the retry loop: two prompts and one
    login call have been made. *)
Definition next_round (w : World) : World :=
  with_calls (tick_login (tick_prompt (tick_prompt (calls w)))) w.

(** What [spinner?.op(...)] reports. *)
Definition opt_spin (sp : option Ora) (op : SpinOp) : list Event :=
  match sp with
  | Some s => [Spin s op]
  | None => []
  end.

(** The test of line 40: one of the two credentials is missing from the
    environment (or empty), so the user is asked. *)
Definition interactive_mode (w : World) : bool :=
  negb (truthy (environ w !! "YARE_LOGIN"))
  || negb (truthy (environ w !! "YARE_PASSWORD")).

(** The error that stops [login] between the selection and the write of
    the session, if there is one: the user picks the first entry and
    [fs.appendFileSync] cannot open the env file.  [w] is the world in
    which [login] is called, or the one the retry loop leaves. *)
Definition save_creds_error (C : Collab) (envf : string) (w : World)
  : option Exn :=
  if Nat.eqb (selection_reply C (selections (calls w))) 0
  then append_error C (fs w) (path_resolve C "." envf)
  else None.

(** What is appended to the env file for the selected entry [i]. *)
Definition creds_saved (C : Collab) (envf : string) (i : nat)
    (username password : string) : list Event :=
  if Nat.eqb i 0
  then [FsAppend (path_resolve C "." envf) (creds_entry username password)]
  else [].

(** The world once the bundler has answered with [outs]. *)
Definition built_world (w : World) (outs : list Artifact) : World :=
  with_fs (write_outputs outs (fs w)) (with_calls (tick_build (calls w)) w).

(** The exception the [catch] of the build stage receives. *)
Definition build_fault (r : Reply (list Artifact)) : option Exn :=
  match r with
  | Raises e => Some e
  | Returns [] => Some (TypeError "outputs[0] is undefined")
  | Returns (_ :: _) => None
  end.

(** In round [k] (from 0) of the retry loop started in [w] the user types
    these, and [sync.login] answers this. *)
Definition typed_username (C : Collab) (w : World) (k : nat) : string :=
  prompt_reply C (prompts (calls w) + 2 * k) "Yare Username: ".

Definition typed_password (C : Collab) (w : World) (k : nat) : string :=
  prompt_reply C (prompts (calls w) + 2 * k + 1) "Password: ".

Definition attempt_reply (C : Collab) (w : World) (k : nat) : Reply Session :=
  login_reply C (logins (calls w) + k) (typed_username C w k) (typed_password C w k).

(** ** The [sync] command *)

(** What the action of the [sync] command does: what its cycle does, and
    around it the clearing of the terminal and the subscription to the
    watch directory. *)
Inductive CommandEvent :=
| InCycle (e : Event)
| ClearTerminal                       (* Bun.write(Bun.stdout, "\x1Bc") *)
| FsWatch (dir : string) (recursive : bool).

Record CommandRun := MkCommandRun {
  outcome : Result unit;
  world_left : World;
  trace : list CommandEvent
}.

(** [fs.existsSync(p)]: there is a file or a directory at [p].  The disk
    of [World] holds files; [dirs] are the directories. *)
Definition fs_existsSync (dirs : gset string) (p : string) (w : World) : bool :=
  bool_decide (p ∈ dirs)
  || match fs w !! p with Some _ => true | None => false end.

Definition watchSpinner : Ora := ora "Watching for changes...".

Definition watch_failed_message (C : Collab) (dir : string) : string :=
  chalk C [red; bold] "Watch failed:" +:+ " Could not find watch directory "
  +:+ chalk C [bold] dir +:+ ".".

(** The action of the [sync] command, lines 182-203.  With [--watch] the
    terminal is cleared, and after the first cycle has returned the watch
    directory is checked and subscribed to; the callback of the
    subscription is [buildAndSync] with the same options. *)
Definition sync_command (C : Collab) (dirs : gset string) (fuel : nat)
    (o : SyncOptions) (w : World) : CommandRun :=
  let r := buildAndSync C fuel o w in
  let cycle := (if watch o then [ClearTerminal] else [])
               ++ map InCycle (events r) in
  match result r with
  | Done _ =>
      if watch o then
        if fs_existsSync dirs (watchDir o) (world r) then
          MkCommandRun (Done tt) (world r)
            (cycle ++ [InCycle (Spin watchSpinner (Start None));
                       FsWatch (watchDir o) true])
        else
          MkCommandRun (Exited 9) (world r)
            (cycle ++ [InCycle (Spin watchSpinner (Start None));
                       InCycle (Spin watchSpinner
                                     (Fail (watch_failed_message C (watchDir o))))])
      else MkCommandRun (Done tt) (world r) cycle
  | Thrown e => MkCommandRun (Thrown e) (world r) cycle
  | Exited c => MkCommandRun (Exited c) (world r) cycle
  | OutOfFuel => MkCommandRun OutOfFuel (world r) cycle
  end.

Definition is_watch (e : CommandEvent) : bool :=
  match e with FsWatch _ _ => true | _ => false end.

(** ** What a computation leaves alone *)

(** [w'] has the environment of [w] and every file of [w], and differs
    from [w] on disk only at paths that satisfy [P]. *)
Definition same_except (P : string -> Prop) (w w' : World) : Prop :=
  environ w' = environ w /\
  (forall p, ~ P p -> fs w' !! p = fs w !! p) /\
  (forall p, is_Some (fs w !! p) -> is_Some (fs w' !! p)).

Definition changes_only {A} (P : string -> Prop) (m : M A) : Prop :=
  forall w, same_except P w (world (m w)).

(** No run of [m] ends the process. *)
Definition never_exits {A} (m : M A) : Prop :=
  forall w c, result (m w) <> Exited c.

(** The files [login] and the session stage may write: the session file
    and the env file. *)
Definition login_files (C : Collab) (envf : string) (p : string) : Prop :=
  p = SESSION_FILE_PATH C \/ p = path_resolve C "." envf.

(** The prompts of [getCreds]: the user name in clear, the password
    masked. *)
Definition prompt_as_written (e : Event) : Prop :=
  match e with
  | Prompt label masked _ =>
      (label = "Yare Username: " /\ masked = false) \/
      (label = "Password: " /\ masked = true)
  | _ => True
  end.

Definition is_login_error_report (e : Event) : bool :=
  match e with
  | Spin _ (Fail msg) => String.eqb msg "Error logging in. Try again."
  | _ => false
  end.


Definition is_unlink (e : Event) : bool :=
  match e with FsUnlink _ => true | _ => false end.

(** ** A concrete runtime, for running the model on examples *)

Module Sample.

Definition dq : string := String (Ascii.ascii_of_nat 34) EmptyString.

(** The session document as [JSON.stringify] prints it for field values
    without quotes, backslashes or control characters. *)
Definition stringify (s : Session) : string :=
  "{" +:+ dq +:+ "user_id" +:+ dq +:+ ":" +:+ dq +:+ user_id s +:+ dq
  +:+ "," +:+ dq +:+ "session_id" +:+ dq +:+ ":" +:+ dq +:+ session_id s +:+ dq
  +:+ "}".

Fixpoint strip_prefix (p s : string) : option string :=
  match p, s with
  | EmptyString, _ => Some s
  | String a p', String b s' =>
      if Ascii.eqb a b then strip_prefix p' s' else None
  | String _ _, EmptyString => None
  end.

(** The characters before the next double quote, and what follows it. *)
Fixpoint until_quote (s : string) : option (string * string) :=
  match s with
  | EmptyString => None
  | String a s' =>
      if Ascii.eqb a (Ascii.ascii_of_nat 34) then Some (EmptyString, s')
      else match until_quote s' with
           | Some (x, r) => Some (String a x, r)
           | None => None
           end
  end.

(** A reader for the documents [stringify] prints; every other text is
    rejected. *)
Definition parse (t : string) : option Session :=
  match strip_prefix ("{" +:+ dq +:+ "user_id" +:+ dq +:+ ":" +:+ dq) t with
  | None => None
  | Some r1 =>
      match until_quote r1 with
      | None => None
      | Some (u, r2) =>
          match strip_prefix ("," +:+ dq +:+ "session_id" +:+ dq +:+ ":" +:+ dq) r2 with
          | None => None
          | Some r3 =>
              match until_quote r3 with
              | None => None
              | Some (sid, r4) =>
                  if String.eqb r4 "}"
                  then Some {| user_id := u; session_id := sid |}
                  else None
              end
          end
      end
  end.

(** A runtime whose yare-sync answers are given; the terminal has no
    colours, the user types [alice] / [secret] and picks the given entry of
    the selection, sessions whose id starts with [ok] verify, and every
    path can be opened. *)
Definition collab
    (lr : nat -> string -> string -> Reply Session)
    (gr : nat -> string -> Reply (list Game))
    (sr : nat -> string -> list Game -> Session -> Reply bool)
    (br : nat -> string -> bool -> Reply (list Artifact))
    (pick : nat) : Collab :=
  {| os_tmpdir := "/tmp";
     path_resolve := fun _ p => "/proj/" +:+ p;
     JSON_parse := parse;
     JSON_stringify := stringify;
     chalk := fun _ s => s;
     verifySession := fun s => String.prefix "ok" (session_id s);
     login_reply := lr;
     getGames_reply := gr;
     sendCode_reply := sr;
     build_reply := br;
     prompt_reply := fun _ label =>
       if String.eqb label "Password: " then "secret" else "alice";
     selection_reply := fun _ => pick;
     append_error := fun _ _ => None |}.

Definition alice : Session := {| user_id := "alice"; session_id := "ok-1" |}.
Definition stale : Session := {| user_id := "alice"; session_id := "old" |}.

Definition no_calls : Calls :=
  {| builds := 0; logins := 0; prompts := 0; selections := 0;
     listings := 0; uploads := 0 |}.

Definition session_path : string := "/tmp/yare-sync-last-session.json".

Definition bundle : Artifact := {| path := "/proj/dist/index.js"; body := "code" |}.

Definition options : SyncOptions :=
  {| watch := false; watchDir := "./src"; noMinify := false;
     file := "src/index.ts"; env := ".env" |}.

(** Login answers: the first [k] attempts are refused, later ones return
    a session for the user name given. *)
Definition login_after (k : nat) (n : nat) (u p : string) : Reply Session :=
  if Nat.ltb n k then Raises (Failure "bad credentials")
  else Returns {| user_id := u; session_id := "ok-" +:+ p |}.

Definition two_games : list Game :=
  [ {| server := "a"; id := "1" |}; {| server := "b"; id := "2" |} ].

Definition games_are (gs : list Game) (n : nat) (uid : string)
  : Reply (list Game) := Returns gs.

Definition upload_says (b : bool) (n : nat) (code : string)
    (gs : list Game) (s : Session) : Reply bool := Returns b.

Definition build_gives (r : Reply (list Artifact)) (n : nat) (entry : string)
    (minify : bool) : Reply (list Artifact) := r.

(** Disk contents. *)
Definition with_source : gmap string string :=
  {[ "src/index.ts" := "export {}" ]}.

Definition world_of (d env : gmap string string) : World :=
  {| fs := d; environ := env; calls := no_calls |}.

Definition creds_env : gmap string string :=
  {[ "YARE_LOGIN" := "bob"; "YARE_PASSWORD" := "hunter2" ]}.

(** Runtimes: everything works; the first two logins are refused; the
    user has no games; the bundler returns no output; the bundler throws. *)
Definition working : Collab :=
  collab (login_after 0) (games_are two_games) (upload_says true)
         (build_gives (Returns [bundle])) 1.

Definition refusing_twice : Collab :=
  collab (login_after 2) (games_are two_games) (upload_says true)
         (build_gives (Returns [bundle])) 1.

Definition without_games : Collab :=
  collab (login_after 0) (games_are []) (upload_says true)
         (build_gives (Returns [bundle])) 1.

Definition empty_build : Collab :=
  collab (login_after 0) (games_are two_games) (upload_says true)
         (build_gives (Returns [])) 1.

Definition failing_build : Collab :=
  collab (login_after 0) (games_are two_games) (upload_says true)
         (build_gives (Raises (Failure "syntax error"))) 1.

(** Worlds: a project with credentials in the environment; the same
    without the entrypoint; nothing at all; a project with a cached
    session and no credentials; a session file alone, holding a session
    that verifies, text that is not JSON, or a session that does not
    verify. *)
Definition project : World := world_of with_source creds_env.
Definition no_entrypoint : World := world_of ∅ creds_env.
Definition bare : World := world_of ∅ ∅.
Definition cached : World :=
  world_of (<[session_path := stringify alice]> with_source) ∅.
Definition logged_in : World :=
  world_of {[ session_path := stringify alice ]} ∅.
Definition corrupt : World :=
  world_of {[ session_path := "not json" ]} ∅.
Definition expired : World :=
  world_of {[ session_path := stringify stale ]} ∅.

(** More runtimes: the yare service cannot be reached when the games are
    listed; the upload is rejected; the first login is refused and the
    user asks for the credentials to be saved. *)
Definition offline : Collab :=
  collab (login_after 0) (fun _ _ => Raises (Failure "offline"))
         (upload_says true) (build_gives (Returns [bundle])) 1.

Definition rejecting : Collab :=
  collab (login_after 0) (games_are two_games) (upload_says false)
         (build_gives (Returns [bundle])) 1.

Definition saving : Collab :=
  collab (login_after 1) (games_are two_games) (upload_says true)
         (build_gives (Returns [bundle])) 0.

(** The runtime [C] on a disk where the paths under [dir] cannot be
    opened: there is no such directory. *)
Definition without_directory (dir : string) (C : Collab) : Collab :=
  {| os_tmpdir := os_tmpdir C;
     path_resolve := path_resolve C;
     JSON_parse := JSON_parse C;
     JSON_stringify := JSON_stringify C;
     chalk := chalk C;
     verifySession := verifySession C;
     login_reply := login_reply C;
     getGames_reply := getGames_reply C;
     sendCode_reply := sendCode_reply C;
     build_reply := build_reply C;
     prompt_reply := prompt_reply C;
     selection_reply := selection_reply C;
     append_error := fun _ p =>
       if String.prefix dir p then Some (ENOENT p) else None |}.

(** The first login is refused, the user asks for the credentials to be
    saved, and [/proj/conf] does not exist. *)
Definition saving_nowhere : Collab := without_directory "/proj/conf/" saving.

(** More worlds and options: a project without credentials and without a
    session; an env file alone; the options of [sync --watch]. *)
Definition watched : World := world_of with_source ∅.


Definition watching : SyncOptions :=
  {| watch := true; watchDir := "./src"; noMinify := false;
     file := "src/index.ts"; env := ".env" |}.

(** [sync --watch --watch-dir ./lib] in a project that has no [lib]: its
    directories are those of the sources and of the bundle, and there is
    the directory of the session file. *)
Definition watching_elsewhere : SyncOptions :=
  {| watch := true; watchDir := "./lib"; noMinify := false;
     file := "src/index.ts"; env := ".env" |}.

Definition project_dirs : gset string := {[ "./src"; "./dist"; "/tmp" ]}.

Definition bob : Session := {| user_id := "bob"; session_id := "ok-hunter2" |}.
Definition typed : Session := {| user_id := "alice"; session_id := "ok-secret" |}.

End Sample.

(** ** Properties *)

(** *** The monad *)

Lemma bind_done {A B} (m : M A) (f : A -> M B) w a w1 l1 :
  m w = MkRun (Done a) w1 l1 ->
  bind m f w = after l1 (f a w1).
Proof. intros H. unfold bind, after. rewrite H. now destruct (f a w1). Qed.

Lemma bind_thrown {A B} (m : M A) (f : A -> M B) w e w1 l1 :
  m w = MkRun (Thrown e) w1 l1 ->
  bind m f w = MkRun (Thrown e) w1 l1.
Proof. intros H. unfold bind. now rewrite H. Qed.

Lemma bind_exited {A B} (m : M A) (f : A -> M B) w c w1 l1 :
  m w = MkRun (Exited c) w1 l1 ->
  bind m f w = MkRun (Exited c) w1 l1.
Proof. intros H. unfold bind. now rewrite H. Qed.

Lemma bind_out_of_fuel {A B} (m : M A) (f : A -> M B) w w1 l1 :
  m w = MkRun OutOfFuel w1 l1 ->
  bind m f w = MkRun OutOfFuel w1 l1.
Proof. intros H. unfold bind. now rewrite H. Qed.

Lemma after_after {A} (l1 l2 : list Event) (r : Run A) :
  after l1 (after l2 r) = after (l1 ++ l2) r.
Proof. unfold after; simpl. now rewrite app_assoc. Qed.

Lemma after_nil {A} (r : Run A) : after [] r = r.
Proof. now destruct r. Qed.

(** *** The session file *)

(** [getExistingSession] by cases on the session file: it reads, it never
    writes, and what it returns has passed [verifySession]. *)
Lemma getExistingSession_spec C w :
  getExistingSession C w =
  MkRun (match fs w !! SESSION_FILE_PATH C with
         | None => Done None
         | Some t =>
             match JSON_parse C t with
             | None => Thrown SyntaxError
             | Some s => Done (if verifySession C s then Some s else None)
             end
         end) w [].
Proof.
  unfold getExistingSession, bind, Bun_file_exists, Bun_file_json, bind,
    Bun_file_text; simpl.
  destruct (fs w !! SESSION_FILE_PATH C) as [t|] eqn:E; simpl; [|reflexivity].
  rewrite E; simpl.
  destruct (JSON_parse C t) as [s|]; simpl; [|reflexivity].
  now destruct (verifySession C s).
Qed.

(** C3 (as amended).  [getExistingSession] returns null, without throwing
    and without touching the disk, when the session file is missing and
    when the stored session fails [verifySession]; a session it returns
    has passed [verifySession].  When the file is there and its text is
    not JSON, the [SyntaxError] of [file.json()] leaves the function. *)
Theorem getExistingSession_outcomes (C : Collab) (w : World) :
  let r := getExistingSession C w in
  (fs w !! SESSION_FILE_PATH C = None -> result r = Done None) /\
  (forall t s, fs w !! SESSION_FILE_PATH C = Some t ->
               JSON_parse C t = Some s -> verifySession C s = false ->
               result r = Done None) /\
  (forall t s, fs w !! SESSION_FILE_PATH C = Some t ->
               JSON_parse C t = Some s -> verifySession C s = true ->
               result r = Done (Some s)) /\
  (forall s, result r = Done (Some s) -> verifySession C s = true) /\
  (forall t, fs w !! SESSION_FILE_PATH C = Some t -> JSON_parse C t = None ->
             result r = Thrown SyntaxError) /\
  world r = w /\ events r = [].
Proof.
  intros r. subst r. rewrite getExistingSession_spec; simpl.
  repeat split.
  - now intros ->.
  - intros t s -> -> ->. reflexivity.
  - intros t s -> -> ->. reflexivity.
  - intros s. destruct (fs w !! SESSION_FILE_PATH C) as [t|]; [|discriminate].
    destruct (JSON_parse C t) as [s'|]; [|discriminate].
    destruct (verifySession C s') eqn:V; [|discriminate].
    intros [= <-]. exact V.
  - now intros t -> ->.
Qed.

(** C3 as stated fails: with a session file whose text is not JSON the
    function throws instead of returning null. *)
Lemma getExistingSession_unparseable_throws :
  fs Sample.corrupt !! SESSION_FILE_PATH Sample.working = Some "not json" /\
  JSON_parse Sample.working "not json" = None /\
  result (getExistingSession Sample.working Sample.corrupt)
    = Thrown SyntaxError /\
  ~ (forall (C : Collab) (w : World) (t : string),
        fs w !! SESSION_FILE_PATH C = Some t -> JSON_parse C t = None ->
        result (getExistingSession C w) = Done None).
Proof.
  assert (E : result (getExistingSession Sample.working Sample.corrupt)
              = Thrown SyntaxError) by (vm_compute; reflexivity).
  repeat split; try (vm_compute; reflexivity); try exact E.
  intros H. specialize (H Sample.working Sample.corrupt "not json").
  rewrite E in H. discriminate H; vm_compute; reflexivity.
Qed.

Lemma getExistingSession_outcomes_witness :
  result (getExistingSession Sample.working Sample.bare) = Done None /\
  result (getExistingSession Sample.working Sample.expired) = Done None /\
  result (getExistingSession Sample.working Sample.logged_in)
    = Done (Some Sample.alice) /\
  result (getExistingSession Sample.working Sample.corrupt)
    = Thrown SyntaxError.
Proof.
  split; [|split; [|split]].
  - apply (getExistingSession_outcomes Sample.working Sample.bare).
    vm_compute; reflexivity.
  - apply (getExistingSession_outcomes Sample.working Sample.expired)
      with (t := Sample.stringify Sample.stale) (s := Sample.stale);
      vm_compute; reflexivity.
  - apply (getExistingSession_outcomes Sample.working Sample.logged_in)
      with (t := Sample.stringify Sample.alice); vm_compute; reflexivity.
  - apply (getExistingSession_outcomes Sample.working Sample.corrupt)
      with (t := "not json"); vm_compute; reflexivity.
Defined.

(** *** Logout *)

(** C9.  When the logout command has deleted the session file, the next
    [getExistingSession] returns null. *)
Theorem logout_then_load_absent (C : Collab) (w : World) :
  result (logout C w) = Done tt ->
  fs (world (logout C w)) !! SESSION_FILE_PATH C = None /\
  In (FsUnlink (SESSION_FILE_PATH C)) (events (logout C w)) /\
  result (getExistingSession C (world (logout C w))) = Done None.
Proof.
  intros H. rewrite getExistingSession_spec; simpl.
  revert H. unfold logout, bind, spin, emit, fs_unlinkSync; simpl.
  destruct (fs w !! SESSION_FILE_PATH C) as [t|] eqn:E; simpl; [|discriminate].
  intros _. rewrite lookup_delete_eq. auto.
Qed.

Lemma logout_then_load_absent_witness :
  result (getExistingSession Sample.working Sample.logged_in)
    = Done (Some Sample.alice) /\
  result (getExistingSession Sample.working
            (world (logout Sample.working Sample.logged_in))) = Done None.
Proof.
  split; [vm_compute; reflexivity|].
  apply (logout_then_load_absent Sample.working Sample.logged_in).
  vm_compute; reflexivity.
Defined.

(** *** The build stage *)

Lemma build_stage_spec C f nm w :
  build_stage C f nm w =
  let rp := build_reply C (builds (calls w)) f (negb nm) in
  match rp with
  | Returns (a :: outs) =>
      MkRun (Done (path a)) (built_world w (a :: outs))
            [CallBuild f (negb nm) rp; Spin buildSpinner (Succeed "Built")]
  | Returns [] =>
      MkRun (Exited 1) (built_world w [])
            [CallBuild f (negb nm) rp;
             Spin buildSpinner (Fail (build_failed_message C));
             ConsoleError (Some (TypeError "outputs[0] is undefined"))]
  | Raises e =>
      MkRun (Exited 1) (with_calls (tick_build (calls w)) w)
            [CallBuild f (negb nm) rp;
             Spin buildSpinner (Fail (build_failed_message C));
             ConsoleError (Some e)]
  end.
Proof.
  unfold build_stage, bind, try_catch, Bun_build, bind; simpl.
  destruct (build_reply C (builds (calls w)) f (negb nm)) as [[|a outs]|e];
    reflexivity.
Qed.

Lemma buildAndSync_missing C fuel o w :
  fs w !! file o = None ->
  buildAndSync C fuel o w =
  MkRun (Exited 9) w
        [Spin buildSpinner (Start None);
         Spin buildSpinner (Fail (entrypoint_missing_message C (file o)))].
Proof.
  intros H. unfold buildAndSync.
  erewrite bind_done by reflexivity.
  erewrite bind_done by reflexivity.
  rewrite H; cbv beta iota delta [negb].
  erewrite bind_done by reflexivity.
  reflexivity.
Qed.

Lemma buildAndSync_present C fuel o w :
  is_Some (fs w !! file o) ->
  buildAndSync C fuel o w =
  after [Spin buildSpinner (Start None)]
        (bind (build_stage C (file o) (noMinify o))
              (fun distFile =>
                 bind (session_stage C fuel (env o))
                      (fun session => sync_stage C distFile session)) w).
Proof.
  intros [t H]. unfold buildAndSync.
  erewrite bind_done by reflexivity.
  erewrite bind_done by reflexivity.
  rewrite H; cbv beta iota delta [negb].
  now rewrite after_nil.
Qed.

(** A build that throws, or that returns no output, ends the cycle. *)
Lemma buildAndSync_build_fault C fuel o w e :
  is_Some (fs w !! file o) ->
  build_fault (build_reply C (builds (calls w)) (file o) (negb (noMinify o)))
    = Some e ->
  result (buildAndSync C fuel o w) = Exited 1 /\
  events (buildAndSync C fuel o w) =
    [Spin buildSpinner (Start None);
     CallBuild (file o) (negb (noMinify o))
       (build_reply C (builds (calls w)) (file o) (negb (noMinify o)));
     Spin buildSpinner (Fail (build_failed_message C));
     ConsoleError (Some e)].
Proof.
  intros Hf Hb. rewrite buildAndSync_present by exact Hf.
  destruct (build_reply C (builds (calls w)) (file o) (negb (noMinify o)))
    as [[|a outs]|e'] eqn:E; simpl in Hb; try discriminate;
    injection Hb as <-;
    (erewrite bind_exited
       by (rewrite build_stage_spec; cbv zeta; rewrite E; reflexivity));
    simpl; auto.
Qed.

(** A build that returns outputs hands the cycle to the later stages. *)
Lemma buildAndSync_built C fuel o w a outs :
  is_Some (fs w !! file o) ->
  build_reply C (builds (calls w)) (file o) (negb (noMinify o))
    = Returns (a :: outs) ->
  buildAndSync C fuel o w =
  after [Spin buildSpinner (Start None);
         CallBuild (file o) (negb (noMinify o)) (Returns (a :: outs));
         Spin buildSpinner (Succeed "Built")]
        (bind (session_stage C fuel (env o))
              (fun session => sync_stage C (path a) session)
              (built_world w (a :: outs))).
Proof.
  intros Hf Hb. rewrite buildAndSync_present by exact Hf.
  erewrite bind_done
    by (rewrite build_stage_spec; cbv zeta; rewrite Hb; reflexivity).
  now rewrite after_after.
Qed.

(** C2.  When the entrypoint file does not exist, the cycle ends the
    process with exit code 9 after reporting the failure; the bundler,
    [sync.login] and [sync.sendCode] are not called, the user is not asked
    anything, and the world is as it was. *)
Theorem missing_entrypoint_exits_9 (C : Collab) (fuel : nat) (o : SyncOptions)
    (w : World) :
  fs w !! file o = None ->
  let r := buildAndSync C fuel o w in
  result r = Exited 9 /\
  events r = [Spin buildSpinner (Start None);
              Spin buildSpinner (Fail (entrypoint_missing_message C (file o)))] /\
  count_events is_build_call (events r) = 0 /\
  count_events is_login_call (events r) = 0 /\
  count_events is_upload_call (events r) = 0 /\
  count_events is_interaction (events r) = 0 /\
  world r = w.
Proof.
  intros H r. subst r. rewrite buildAndSync_missing by exact H.
  simpl. repeat split; reflexivity.
Qed.

Lemma missing_entrypoint_exits_9_witness :
  fs Sample.no_entrypoint !! file Sample.options = None /\
  result (buildAndSync Sample.working 3 Sample.options Sample.no_entrypoint)
    = Exited 9.
Proof.
  split; [vm_compute; reflexivity|].
  apply (missing_entrypoint_exits_9 Sample.working 3 Sample.options
           Sample.no_entrypoint).
  vm_compute; reflexivity.
Defined.

(** *** Which events a computation can produce *)

Lemma produces_ret {A} P (a : A) : produces P (ret a).
Proof. intros w. constructor. Qed.

Lemma produces_out_of_fuel {A} P : produces P (@out_of_fuel A).
Proof. intros w. constructor. Qed.

Lemma produces_emit (P : Event -> Prop) ev : P ev -> produces P (emit ev).
Proof. intros H w. simpl. auto. Qed.

Lemma produces_bind {A B} P (m : M A) (f : A -> M B) :
  produces P m -> (forall a, produces P (f a)) -> produces P (bind m f).
Proof.
  intros Hm Hf w. unfold bind. specialize (Hm w).
  destruct (m w) as [[a|e|c|] w1 l1]; simpl in *; try assumption.
  specialize (Hf a w1). destruct (f a w1) as [r w2 l2]; simpl in *.
  apply Forall_app; auto.
Qed.

Lemma produces_try_catch {A} P (m : M A) (h : Exn -> M A) :
  produces P m -> (forall e, produces P (h e)) -> produces P (try_catch m h).
Proof.
  intros Hm Hh w. unfold try_catch. specialize (Hm w).
  destruct (m w) as [[a|e|c|] w1 l1]; simpl in *; try assumption.
  specialize (Hh e w1). destruct (h e w1) as [r w2 l2]; simpl in *.
  apply Forall_app; auto.
Qed.

Lemma produces_weaken {A} (P Q : Event -> Prop) (m : M A) :
  (forall e, P e -> Q e) -> produces P m -> produces Q m.
Proof. intros H Hm w. eapply Forall_impl; [apply Hm | exact H]. Qed.

Lemma produces_spin P sp op : P (Spin sp op) -> produces P (spin sp op).
Proof. apply produces_emit. Qed.

Lemma produces_spin_opt P sp op :
  (forall s, P (Spin s op)) -> produces P (spin_opt sp op).
Proof.
  intros H. destruct sp; [apply produces_emit, H | apply produces_ret].
Qed.

Lemma produces_console_error P e :
  P (ConsoleError e) -> produces P (console_error e).
Proof. apply produces_emit. Qed.

Lemma produces_sync_login C P u p :
  (forall r, P (CallLogin u p r)) -> produces P (sync_login C u p).
Proof.
  intros H w. unfold sync_login.
  destruct (login_reply C (logins (calls w)) u p); simpl; auto.
Qed.

Lemma produces_createPrompt C P label masked :
  (forall v, P (Prompt label masked v)) ->
  produces P (createPrompt C label masked).
Proof. intros H w. simpl. auto. Qed.

Lemma produces_createSelection C P options header :
  (forall i, P (Select options header i)) ->
  produces P (createSelection C options header).
Proof. intros H w. simpl. auto. Qed.

Lemma produces_Bun_env P name : produces P (Bun_env name).
Proof. intros w. constructor. Qed.

Lemma produces_fs_appendFileSync C P p t :
  P (FsAppend p t) -> produces P (fs_appendFileSync C p t).
Proof.
  intros H w. unfold fs_appendFileSync.
  destruct (append_error C (fs w) p); simpl; auto.
Qed.

Lemma produces_saveSession C P s :
  P (FsWrite (SESSION_FILE_PATH C) (JSON_stringify C s)) ->
  produces P (saveSession C s).
Proof. intros H w. simpl. auto. Qed.

Lemma produces_getExistingSession C P : produces P (getExistingSession C).
Proof. intros w. rewrite getExistingSession_spec. constructor. Qed.

Create HintDb produces.

#[local] Hint Resolve produces_ret produces_out_of_fuel produces_bind
  produces_try_catch produces_spin produces_spin_opt produces_console_error
  produces_sync_login produces_createPrompt produces_createSelection
  produces_Bun_env produces_fs_appendFileSync produces_saveSession
  produces_getExistingSession : produces.
#[local] Hint Extern 1 (_ = true) => reflexivity : produces.

(** The retry loop only prompts, calls [sync.login] and reports. *)
Lemma login_loop_produces C fuel sp :
  produces (fun e => is_loop_event e = true) (login_loop C fuel sp).
Proof.
  induction fuel as [|fuel IH]; cbn [login_loop]; [auto with produces|].
  apply produces_bind; [unfold getCreds; auto 7 with produces|].
  intros creds.
  apply produces_bind; [auto 8 with produces|].
  intros [s|]; auto with produces.
Qed.

(** Neither [login] nor the session stage calls the bundler, [getGames]
    or [sendCode]. *)
Lemma login_produces C fuel envf sp :
  produces (fun e => is_session_event e = true) (login C fuel envf sp).
Proof.
  assert (Hloop : produces (fun e => is_session_event e = true)
                           (login_loop C fuel sp)).
  { eapply produces_weaken; [|apply login_loop_produces].
    intros [] H; try discriminate H; reflexivity. }
  unfold login.
  apply produces_bind; [auto with produces|]. intros yl.
  apply produces_bind; [auto with produces|]. intros yp.
  destruct (negb (truthy yl) || negb (truthy yp)); [|auto 7 with produces].
  apply produces_bind; [auto with produces|]. intros _.
  apply produces_bind; [exact Hloop|]. intros [[u p] s].
  apply produces_bind; [auto with produces|]. intros _.
  apply produces_bind; [auto with produces|]. intros i.
  destruct (Nat.eqb i 0); auto 7 with produces.
Qed.

Lemma session_stage_produces C fuel envf :
  produces (fun e => is_session_event e = true) (session_stage C fuel envf).
Proof.
  pose proof (login_produces C fuel envf (Some loginSpinner)) as Hlogin.
  unfold session_stage.
  apply produces_bind; [auto with produces|]. intros _.
  apply produces_bind; [auto with produces|]. intros [s|];
    auto 8 with produces.
Qed.

(** *** Logging in *)

Lemma truthy_Some u : u <> EmptyString -> truthy (Some u) = true.
Proof.
  intros H. unfold truthy. now destruct (String.eqb_spec u EmptyString).
Qed.

Lemma saveSession_spec C s w :
  saveSession C s w =
  MkRun (Done tt)
        (with_fs (<[SESSION_FILE_PATH C := JSON_stringify C s]> (fs w)) w)
        [FsWrite (SESSION_FILE_PATH C) (JSON_stringify C s)].
Proof. reflexivity. Qed.

(** With both credentials in the environment [login] is one call. *)
Lemma login_automation C fuel envf sp w u p :
  environ w !! "YARE_LOGIN" = Some u -> u <> EmptyString ->
  environ w !! "YARE_PASSWORD" = Some p -> p <> EmptyString ->
  login C fuel envf sp w =
  bind (sync_login C u p)
       (fun session => bind (saveSession C session) (fun _ => ret session)) w.
Proof.
  intros Hu Hu' Hp Hp'. unfold login.
  erewrite bind_done by reflexivity.
  erewrite bind_done by reflexivity.
  rewrite Hu, Hp, !truthy_Some by assumption.
  cbn [negb orb default]. now rewrite !after_nil.
Qed.

(** A credential that is set to the empty string counts as missing: the
    test of line 40 is JavaScript truthiness. *)
Lemma empty_credential_is_missing (w : World) :
  environ w !! "YARE_LOGIN" = Some EmptyString -> interactive_mode w = true.
Proof. unfold interactive_mode. now intros ->. Qed.



(** *** The retry loop *)

Lemma count_events_app p l1 l2 :
  count_events p (l1 ++ l2) = count_events p l1 + count_events p l2.
Proof. unfold count_events. now rewrite List.filter_app, length_app. Qed.

Lemma spin_opt_spec sp op w :
  spin_opt sp op w = MkRun (Done tt) w (opt_spin sp op).
Proof. now destruct sp. Qed.

Lemma attempt_reply_next C w k :
  attempt_reply C (next_round w) k = attempt_reply C w (S k).
Proof.
  unfold attempt_reply, typed_username, typed_password, next_round.
  cbn [calls with_calls logins prompts tick_login tick_prompt].
  replace (S (logins (calls w)) + k) with (logins (calls w) + S k) by lia.
  replace (S (S (prompts (calls w))) + 2 * k)
    with (prompts (calls w) + 2 * S k) by lia.
  reflexivity.
Qed.


Lemma getCreds_spec C w :
  getCreds C w =
  MkRun (Done (typed_username C w 0, typed_password C w 0))
        (with_calls (tick_prompt (tick_prompt (calls w))) w)
        [Prompt "Yare Username: " false (typed_username C w 0);
         Prompt "Password: " true (typed_password C w 0)].
Proof.
  unfold getCreds, typed_username, typed_password.
  replace (prompts (calls w) + 2 * 0 + 1) with (S (prompts (calls w))) by lia.
  replace (prompts (calls w) + 2 * 0) with (prompts (calls w)) by lia.
  reflexivity.
Qed.

(** A round whose login call throws: the error is reported and the loop
    goes round again. *)
Lemma login_loop_round_fails C fuel sp w e :
  attempt_reply C w 0 = Raises e ->
  login_loop C (S fuel) sp w =
  after ([Prompt "Yare Username: " false (typed_username C w 0);
          Prompt "Password: " true (typed_password C w 0);
          CallLogin (typed_username C w 0) (typed_password C w 0) (Raises e);
          ConsoleError None]
         ++ opt_spin sp (Fail "Error logging in. Try again."))
        (login_loop C fuel sp (next_round w)).
Proof.
  intros H. unfold attempt_reply in H.
  replace (logins (calls w) + 0) with (logins (calls w)) in H by lia.
  cbn [login_loop].
  erewrite bind_done by apply getCreds_spec.
  cbn [fst snd].
  erewrite bind_done.
  2:{ unfold try_catch, bind, sync_login.
      cbn [calls with_calls logins tick_prompt]. rewrite H.
      unfold console_error, emit. rewrite spin_opt_spec. reflexivity. }
  rewrite after_after, app_nil_r. reflexivity.
Qed.

(** A round whose login call returns a session ends the loop. *)
Lemma login_loop_round_ok C fuel sp w s :
  attempt_reply C w 0 = Returns s ->
  login_loop C (S fuel) sp w =
  MkRun (Done (typed_username C w 0, typed_password C w 0, s))
        (next_round w)
        [Prompt "Yare Username: " false (typed_username C w 0);
         Prompt "Password: " true (typed_password C w 0);
         CallLogin (typed_username C w 0) (typed_password C w 0) (Returns s)].
Proof.
  intros H. unfold attempt_reply in H.
  replace (logins (calls w) + 0) with (logins (calls w)) in H by lia.
  cbn [login_loop].
  erewrite bind_done by apply getCreds_spec.
  cbn [fst snd].
  erewrite bind_done.
  2:{ unfold try_catch, bind, sync_login.
      cbn [calls with_calls logins tick_prompt]. rewrite H. reflexivity. }
  reflexivity.
Qed.



(** Without enough fuel for the refused attempts the loop is cut off. *)
Lemma login_loop_cut_off C sp :
  forall fuel w,
    (forall k, k < fuel -> exists e, attempt_reply C w k = Raises e) ->
    result (login_loop C fuel sp w) = OutOfFuel.
Proof.
  induction fuel as [|fuel IH]; intros w Hfail; [reflexivity|].
  destruct (Hfail 0) as [e He]; [lia|].
  rewrite (login_loop_round_fails C fuel sp w e He).
  unfold after; cbn [result]. apply IH.
  intros k Hk. rewrite attempt_reply_next. apply Hfail. lia.
Qed.

(** *** Interactive login *)

Lemma no_session_write_in_loop C l :
  Forall (fun e => is_loop_event e = true) l ->
  List.filter (is_session_write C) l = [].
Proof.
  induction 1 as [|e l He _ IH]; [reflexivity|].
  destruct e; try discriminate He; exact IH.
Qed.

Lemma no_session_write_opt_spin C sp op :
  List.filter (is_session_write C) (opt_spin sp op) = [].
Proof. now destruct sp. Qed.

Lemma no_session_write_creds_saved C envf i u p :
  List.filter (is_session_write C) (creds_saved C envf i u p) = [].
Proof. unfold creds_saved. now destruct (Nat.eqb i 0). Qed.


(** In interactive mode [login] is the retry loop followed by the
    question about the credentials and the write of the session. *)
Lemma login_interactive_done C fuel envf sp w u p s w1 l1 :
  interactive_mode w = true ->
  login_loop C fuel sp w = MkRun (Done (u, p, s)) w1 l1 ->
  save_creds_error C envf w1 = None ->
  exists w2,
    login C fuel envf sp w =
    MkRun (Done s) w2
          (opt_spin sp (Warn "Couldn't find login credentials.")
           ++ l1 ++ opt_spin sp Clear
           ++ [Select ["Yes"; "No"] (save_creds_header C)
                      (selection_reply C (selections (calls w1)))]
           ++ creds_saved C envf (selection_reply C (selections (calls w1))) u p
           ++ [FsWrite (SESSION_FILE_PATH C) (JSON_stringify C s)]) /\
    fs w2 !! SESSION_FILE_PATH C = Some (JSON_stringify C s).
Proof.
  unfold interactive_mode, save_creds_error. intros Hi Hl Ha. unfold login.
  erewrite bind_done by reflexivity.
  erewrite bind_done by reflexivity.
  rewrite Hi.
  erewrite bind_done by apply spin_opt_spec.
  erewrite bind_done by exact Hl.
  cbv beta iota.
  erewrite bind_done by apply spin_opt_spec.
  erewrite bind_done by reflexivity.
  unfold creds_saved.
  destruct (Nat.eqb (selection_reply C (selections (calls w1))) 0).
  - erewrite bind_done
      by (unfold fs_appendFileSync; cbn [fs with_calls]; rewrite Ha;
          reflexivity).
    erewrite bind_done by apply saveSession_spec.
    eexists. split; [reflexivity|]. apply lookup_insert_eq.
  - erewrite bind_done by reflexivity.
    erewrite bind_done by apply saveSession_spec.
    eexists. split; [reflexivity|]. apply lookup_insert_eq.
Qed.

(** When the credentials are to be saved and the env file cannot be
    opened, the error of [fs.appendFileSync] leaves [login]: nothing has
    been appended and the session has not been written. *)
Lemma login_interactive_thrown C fuel envf sp w u p s w1 l1 e :
  interactive_mode w = true ->
  login_loop C fuel sp w = MkRun (Done (u, p, s)) w1 l1 ->
  save_creds_error C envf w1 = Some e ->
  login C fuel envf sp w =
  MkRun (Thrown e) (with_calls (tick_selection (calls w1)) w1)
        (opt_spin sp (Warn "Couldn't find login credentials.")
         ++ l1 ++ opt_spin sp Clear
         ++ [Select ["Yes"; "No"] (save_creds_header C)
                    (selection_reply C (selections (calls w1)))]).
Proof.
  unfold interactive_mode, save_creds_error. intros Hi Hl Ha. unfold login.
  erewrite bind_done by reflexivity.
  erewrite bind_done by reflexivity.
  rewrite Hi.
  erewrite bind_done by apply spin_opt_spec.
  erewrite bind_done by exact Hl.
  cbv beta iota.
  erewrite bind_done by apply spin_opt_spec.
  erewrite bind_done by reflexivity.
  destruct (Nat.eqb (selection_reply C (selections (calls w1))) 0);
    [|discriminate Ha].
  erewrite bind_thrown
    by (unfold fs_appendFileSync; cbn [fs with_calls]; rewrite Ha;
        reflexivity).
  reflexivity.
Qed.

(** The retry loop leaves the disk, the environment and the count of
    selections as they are. *)
Lemma login_loop_keeps C fuel sp w :
  fs (world (login_loop C fuel sp w)) = fs w /\
  environ (world (login_loop C fuel sp w)) = environ w /\
  selections (calls (world (login_loop C fuel sp w))) = selections (calls w).
Proof.
  revert w. induction fuel as [|fuel IH]; intros w; [now cbn|].
  destruct (attempt_reply C w 0) as [s|e] eqn:E.
  - rewrite (login_loop_round_ok C fuel sp w s E). now cbn.
  - rewrite (login_loop_round_fails C fuel sp w e E).
    unfold after. cbn [world].
    destruct (IH (next_round w)) as (-> & -> & ->). now cbn.
Qed.

Lemma save_creds_error_after_loop C fuel envf sp w :
  save_creds_error C envf (world (login_loop C fuel sp w))
  = save_creds_error C envf w.
Proof.
  unfold save_creds_error.
  destruct (login_loop_keeps C fuel sp w) as (-> & _ & ->). reflexivity.
Qed.

(** When the loop does not return, neither does [login]. *)
Lemma login_interactive_stops C fuel envf sp w :
  interactive_mode w = true ->
  (forall x, result (login_loop C fuel sp w) <> Done x) ->
  forall s, result (login C fuel envf sp w) <> Done s.
Proof.
  unfold interactive_mode. intros Hi Hl s. unfold login.
  erewrite bind_done by reflexivity.
  erewrite bind_done by reflexivity.
  rewrite Hi.
  erewrite bind_done by apply spin_opt_spec.
  destruct (login_loop C fuel sp w) as [[x|e|c|] w1 l1] eqn:E.
  - now destruct (Hl x).
  - erewrite bind_thrown by exact E. discriminate.
  - erewrite bind_exited by exact E. discriminate.
  - erewrite bind_out_of_fuel by exact E. discriminate.
Qed.

Lemma session_writes_interactive C sp l1 envf i u p s :
  Forall (fun e => is_loop_event e = true) l1 ->
  List.filter (is_session_write C)
    (opt_spin sp (Warn "Couldn't find login credentials.")
     ++ l1 ++ opt_spin sp Clear
     ++ [Select ["Yes"; "No"] (save_creds_header C) i]
     ++ creds_saved C envf i u p
     ++ [FsWrite (SESSION_FILE_PATH C) (JSON_stringify C s)])
  = [FsWrite (SESSION_FILE_PATH C) (JSON_stringify C s)].
Proof.
  intros Hl. rewrite !List.filter_app.
  rewrite !no_session_write_opt_spin, (no_session_write_in_loop C l1 Hl),
    no_session_write_creds_saved.
  cbn [List.filter app is_session_write].
  now rewrite (String.eqb_refl (SESSION_FILE_PATH C)).
Qed.

Lemma truthy_inv v : truthy v = true -> exists u, v = Some u /\ u <> EmptyString.
Proof.
  destruct v as [u|]; [|discriminate]. unfold truthy.
  destruct (String.eqb_spec u EmptyString); [discriminate|]. eauto.
Qed.

(** Whichever way [login] obtained the session it returns, the one write
    to the session file in its record is the write of that session, and
    the session file holds it afterwards. *)
Lemma login_done_persists C fuel envf sp w s :
  result (login C fuel envf sp w) = Done s ->
  List.filter (is_session_write C) (events (login C fuel envf sp w))
    = [FsWrite (SESSION_FILE_PATH C) (JSON_stringify C s)] /\
  fs (world (login C fuel envf sp w)) !! SESSION_FILE_PATH C
    = Some (JSON_stringify C s).
Proof.
  intros Hd. destruct (interactive_mode w) eqn:Hi.
  - destruct (login_loop C fuel sp w) as [[[[u p] s']|e|c|] w1 l1] eqn:E;
      try (exfalso; revert Hd; apply login_interactive_stops;
           [exact Hi | rewrite E; discriminate]).
    destruct (save_creds_error C envf w1) as [e|] eqn:Ha.
    { rewrite (login_interactive_thrown C fuel envf sp w u p s' w1 l1 e Hi E Ha)
        in Hd.
      discriminate Hd. }
    destruct (login_interactive_done C fuel envf sp w u p s' w1 l1 Hi E Ha)
      as (w2 & Hrun & Hfs).
    rewrite Hrun in Hd |- *. cbn [result events world] in *.
    injection Hd as <-. split; [|exact Hfs].
    apply session_writes_interactive.
    pose proof (login_loop_produces C fuel sp w) as Hp.
    now rewrite E in Hp.
  - unfold interactive_mode in Hi. apply orb_false_elim in Hi as [Hu Hp].
    apply negb_false_iff, truthy_inv in Hu as (u & Hu & Hu').
    apply negb_false_iff, truthy_inv in Hp as (p & Hp & Hp').
    rewrite (login_automation C fuel envf sp w u p) in Hd |- * by assumption.
    revert Hd. unfold bind, sync_login.
    destruct (login_reply C (logins (calls w)) u p) as [s'|e];
      cbn [saveSession Bun_write ret result events world];
      [|discriminate].
    intros [= <-]. cbn [List.filter app is_session_write fs with_fs].
    rewrite (String.eqb_refl (SESSION_FILE_PATH C)).
    split; [reflexivity | apply lookup_insert_eq].
Qed.





(** *** The session stage and the sync stage *)

Lemma session_stage_cached C fuel envf w t s :
  fs w !! SESSION_FILE_PATH C = Some t ->
  JSON_parse C t = Some s ->
  verifySession C s = true ->
  session_stage C fuel envf w =
  MkRun (Done s) w
        [Spin loginSpinner (Start None);
         Spin loginSpinner
              (Succeed ("Logged in as " +:+ chalk C [green; bold] (user_id s)))].
Proof.
  intros Hf Hp Hv. unfold session_stage.
  erewrite bind_done by reflexivity.
  erewrite bind_done
    by (rewrite getExistingSession_spec, Hf, Hp, Hv; reflexivity).
  erewrite bind_done by reflexivity.
  erewrite bind_done by reflexivity.
  reflexivity.
Qed.

Lemma sync_stage_spec C d s w :
  sync_stage C d s w =
  let rp := getGames_reply C (listings (calls w)) (user_id s) in
  let w1 := with_calls (tick_listing (calls w)) w in
  match rp with
  | Raises e =>
      MkRun (Thrown e) w1
            [Spin syncSpinner (Start None); CallGetGames (user_id s) rp]
  | Returns [] =>
      MkRun (Done tt) w1
            [Spin syncSpinner (Start None); CallGetGames (user_id s) rp;
             Spin syncSpinner (Warn "No current games.")]
  | Returns (g :: gs) =>
      match fs w !! d with
      | None =>
          MkRun (Thrown (ENOENT d)) w1
                [Spin syncSpinner (Start None); CallGetGames (user_id s) rp]
      | Some code =>
          let up := sendCode_reply C (uploads (calls w)) code (g :: gs) s in
          MkRun (match up with
                 | Returns _ => Done tt
                 | Raises e => Thrown e
                 end)
                (with_calls (tick_upload (calls w1)) w1)
                ([Spin syncSpinner (Start None); CallGetGames (user_id s) rp;
                  CallSendCode code (g :: gs) s up]
                 ++ match up with
                    | Returns true =>
                        [Spin syncSpinner (Succeed (uploaded_message (g :: gs)))]
                    | Returns false =>
                        [Spin syncSpinner (Fail "Upload to yare failed.")]
                    | Raises _ => []
                    end)
      end
  end.
Proof.
  unfold sync_stage. cbv zeta.
  erewrite bind_done by reflexivity.
  unfold bind at 1, sync_getGames.
  destruct (getGames_reply C (listings (calls w)) (user_id s)) as [[|g gs]|e];
    try reflexivity.
  cbn [length Nat.eqb]. unfold bind, Bun_file_text, sync_sendCode.
  change (fs (with_calls (tick_listing (calls w)) w)) with (fs w).
  destruct (fs w !! d) as [code|]; [|reflexivity].
  change (uploads (calls (with_calls (tick_listing (calls w)) w)))
    with (uploads (calls w)).
  destruct (sendCode_reply C (uploads (calls w)) code (g :: gs) s) as [[|]|e];
    reflexivity.
Qed.

Lemma sync_stage_produces C d s :
  produces (fun e => is_build_call e = false /\ is_login_call e = false /\
                     is_interaction e = false) (sync_stage C d s).
Proof.
  intros w. rewrite sync_stage_spec. cbv zeta.
  destruct (getGames_reply C (listings (calls w)) (user_id s)) as [[|g gs]|e];
    cbn [events]; try (repeat constructor).
  destruct (fs w !! d) as [code|]; cbn [events]; try (repeat constructor).
  destruct (sendCode_reply C (uploads (calls w)) code (g :: gs) s) as [[|]|e];
    cbn [app]; repeat constructor.
Qed.

Lemma count_events_zero p l :
  Forall (fun e => p e = false) l -> count_events p l = 0.
Proof.
  unfold count_events. induction 1 as [|e l He _ IH]; [reflexivity|].
  cbn [List.filter]. now rewrite He.
Qed.

Lemma session_event_kinds e :
  is_session_event e = true ->
  is_build_call e = false /\ is_listing_call e = false /\
  is_upload_call e = false.
Proof. now destruct e. Qed.

(** The three ways a cycle can go after the entrypoint check. *)
Lemma buildAndSync_shape C fuel o w :
  let r := buildAndSync C fuel o w in
  let rp := build_reply C (builds (calls w)) (file o) (negb (noMinify o)) in
  (fs w !! file o = None /\ result r = Exited 9 /\
   events r = [Spin buildSpinner (Start None);
               Spin buildSpinner (Fail (entrypoint_missing_message C (file o)))])
  \/
  (exists e, build_fault rp = Some e /\ result r = Exited 1 /\
     events r = [Spin buildSpinner (Start None);
                 CallBuild (file o) (negb (noMinify o)) rp;
                 Spin buildSpinner (Fail (build_failed_message C));
                 ConsoleError (Some e)])
  \/
  (exists a outs l1,
     rp = Returns (a :: outs) /\
     Forall (fun e => is_session_event e = true) l1 /\
     ((forall x, result r <> Done x) /\
      events r = [Spin buildSpinner (Start None);
                  CallBuild (file o) (negb (noMinify o)) rp;
                  Spin buildSpinner (Succeed "Built")] ++ l1
      \/
      exists s w1,
        session_stage C fuel (env o) (built_world w (a :: outs))
          = MkRun (Done s) w1 l1 /\
        r = after ([Spin buildSpinner (Start None);
                    CallBuild (file o) (negb (noMinify o)) rp;
                    Spin buildSpinner (Succeed "Built")] ++ l1)
                  (sync_stage C (path a) s w1))).
Proof.
  intros r rp. subst r rp.
  destruct (fs w !! file o) as [t|] eqn:Hf.
  2:{ left. rewrite (buildAndSync_missing C fuel o w Hf). auto. }
  assert (Hs : is_Some (fs w !! file o)) by (rewrite Hf; eauto).
  right.
  destruct (build_fault
              (build_reply C (builds (calls w)) (file o) (negb (noMinify o))))
    as [e|] eqn:Hb.
  { left. exists e. split; [reflexivity|].
    apply buildAndSync_build_fault; assumption. }
  right.
  destruct (build_reply C (builds (calls w)) (file o) (negb (noMinify o)))
    as [[|a outs]|e] eqn:E; try discriminate Hb.
  rewrite (buildAndSync_built C fuel o w a outs Hs E).
  pose proof (session_stage_produces C fuel (env o) (built_world w (a :: outs)))
    as Hp.
  destruct (session_stage C fuel (env o) (built_world w (a :: outs)))
    as [[s|e|c|] w1 l1] eqn:Es; cbn [events] in Hp;
    exists a, outs, l1; (split; [reflexivity|]); (split; [exact Hp|]).
  - right. exists s, w1. split; [exact Es|].
    erewrite bind_done by exact Es. now rewrite after_after.
  - left. erewrite bind_thrown by exact Es. split; [discriminate|reflexivity].
  - left. erewrite bind_exited by exact Es. split; [discriminate|reflexivity].
  - left. erewrite bind_out_of_fuel by exact Es.
    split; [discriminate|reflexivity].
Qed.

(** *** The cycle *)

(** Membership in a short explicit list, by cases. *)
Ltac in_cases H :=
  repeat (destruct H as [H|H]; [try discriminate H|]); try contradiction H.

(** C10.  The build stage lets no exception out.  When the bundler throws,
    and when it returns an empty [outputs] array so that [outputs[0].path]
    throws, the [catch] reports the failure and ends the process with exit
    code 1; an exception that does leave [buildAndSync] was raised after
    the build was reported as done. *)
Theorem build_stage_never_throws (C : Collab) (fuel : nat) (o : SyncOptions)
    (w : World) :
  let rp := build_reply C (builds (calls w)) (file o) (negb (noMinify o)) in
  let r := buildAndSync C fuel o w in
  (forall e, result (build_stage C (file o) (noMinify o) w) <> Thrown e) /\
  (forall e, is_Some (fs w !! file o) -> rp = Raises e ->
     result r = Exited 1 /\
     events r = [Spin buildSpinner (Start None);
                 CallBuild (file o) (negb (noMinify o)) (Raises e);
                 Spin buildSpinner (Fail (build_failed_message C));
                 ConsoleError (Some e)]) /\
  (is_Some (fs w !! file o) -> rp = Returns [] ->
     result r = Exited 1 /\
     events r = [Spin buildSpinner (Start None);
                 CallBuild (file o) (negb (noMinify o)) (Returns []);
                 Spin buildSpinner (Fail (build_failed_message C));
                 ConsoleError (Some (TypeError "outputs[0] is undefined"))]) /\
  (forall e, result r = Thrown e ->
     In (Spin buildSpinner (Succeed "Built")) (events r)).
Proof.
  intros rp r. subst rp r. split; [|split; [|split]].
  - intros e. rewrite build_stage_spec. cbv zeta.
    now destruct (build_reply C (builds (calls w)) (file o) (negb (noMinify o)))
      as [[|a outs]|e'].
  - intros e Hf Hb.
    destruct (buildAndSync_build_fault C fuel o w e Hf) as [Hr He];
      [now rewrite Hb|].
    split; [exact Hr | now rewrite He, Hb].
  - intros Hf Hb.
    destruct (buildAndSync_build_fault C fuel o w
                (TypeError "outputs[0] is undefined") Hf) as [Hr He];
      [now rewrite Hb|].
    split; [exact Hr | now rewrite He, Hb].
  - intros e He.
    destruct (buildAndSync_shape C fuel o w)
      as [(_ & Hr & _) | [(e' & _ & Hr & _) | (a & outs & l1 & _ & _ & Hc)]];
      try (rewrite Hr in He; discriminate He).
    destruct Hc as [[_ Hev] | (s & w1 & _ & Hrun)].
    + rewrite Hev. cbn [app In]. auto.
    + rewrite Hrun. unfold after; cbn [events app In]. auto.
Qed.

Lemma build_stage_never_throws_witness :
  result (buildAndSync Sample.empty_build 1 Sample.options Sample.project)
    = Exited 1.
Proof.
  destruct (build_stage_never_throws Sample.empty_build 1 Sample.options
              Sample.project) as (_ & _ & H & _).
  apply H; [vm_compute; eauto | vm_compute; reflexivity].
Defined.

(** C1.  [sync.sendCode] is called only in a cycle whose build stage has
    completed: every upload in the record of a cycle comes after the call
    to the bundler, which returned outputs, and after the report that the
    build is done.  When the bundler throws, the cycle ends the process
    with exit code 1 and there is no upload. *)
Theorem upload_only_after_build (C : Collab) (fuel : nat) (o : SyncOptions)
    (w : World) :
  let r := buildAndSync C fuel o w in
  (forall e, In e (events r) -> is_upload_call e = true ->
     exists a outs mid post,
       events r = Spin buildSpinner (Start None)
                  :: CallBuild (file o) (negb (noMinify o)) (Returns (a :: outs))
                  :: Spin buildSpinner (Succeed "Built")
                  :: mid ++ e :: post) /\
  (forall entry m ex, In (CallBuild entry m (Raises ex)) (events r) ->
     result r = Exited 1 /\ count_events is_upload_call (events r) = 0).
Proof.
  intros r. subst r.
  destruct (buildAndSync_shape C fuel o w)
    as [(_ & Hr & Hev) | [(e' & Hb & Hr & Hev) | (a & outs & l1 & Hb & Hl & Hc)]].
  - rewrite Hev. split.
    + intros e He Hu. in_cases He; subst e; discriminate Hu.
    + intros entry m ex He. in_cases He.
  - rewrite Hev, Hr. split.
    + intros e He Hu. in_cases He; subst e; discriminate Hu.
    + intros entry m ex He. auto.
  - rewrite Hb in *.
    assert (Hl1 : forall e, In e l1 -> is_session_event e = true)
      by (now apply List.Forall_forall).
    destruct Hc as [[_ Hev] | (s & w1 & _ & Hrun)].
    + rewrite Hev. split.
      * intros e He Hu. cbn [app In] in He. in_cases He; try (subst e; discriminate Hu).
        apply Hl1, session_event_kinds in He as (_ & _ & He).
        congruence.
      * intros entry m ex He. cbn [app In] in He. in_cases He.
        apply Hl1 in He. discriminate He.
    + rewrite Hrun. unfold after; cbn [events result].
      pose proof (sync_stage_produces C (path a) s w1) as Hs.
      rewrite List.Forall_forall in Hs. split.
      * intros e He Hu. rewrite <- app_assoc in He. cbn [app In] in He.
        in_cases He; try (subst e; discriminate Hu).
        apply in_app_or in He as [He|He].
        { apply Hl1, session_event_kinds in He as (_ & _ & He). congruence. }
        apply in_split in He as (x & y & Hxy).
        exists a, outs, (l1 ++ x), y. rewrite Hxy, <- !app_assoc. reflexivity.
      * intros entry m ex He. rewrite <- app_assoc in He. cbn [app In] in He.
        in_cases He. apply in_app_or in He as [He|He].
        { apply Hl1 in He. discriminate He. }
        apply Hs in He as (He & _). discriminate He.
Qed.

Lemma upload_only_after_build_witness :
  (exists a outs mid post,
     events (buildAndSync Sample.working 1 Sample.options Sample.project)
     = Spin buildSpinner (Start None)
       :: CallBuild "src/index.ts" true (Returns (a :: outs))
       :: Spin buildSpinner (Succeed "Built")
       :: mid ++ CallSendCode "code" Sample.two_games Sample.bob (Returns true)
       :: post) /\
  result (buildAndSync Sample.failing_build 1 Sample.options Sample.project)
    = Exited 1 /\
  count_events is_upload_call
    (events (buildAndSync Sample.failing_build 1 Sample.options Sample.project))
    = 0.
Proof.
  split.
  - destruct (upload_only_after_build Sample.working 1 Sample.options
                Sample.project) as [H _].
    apply (H (CallSendCode "code" Sample.two_games Sample.bob (Returns true)));
      [|reflexivity].
    vm_compute. repeat (first [left; reflexivity | right]).
  - destruct (upload_only_after_build Sample.failing_build 1 Sample.options
                Sample.project) as [_ H].
    apply (H "src/index.ts" true (Failure "syntax error")).
    vm_compute. auto.
Defined.

(** A call to [getGames] or [sendCode] in the record of a cycle was made
    by the sync stage, which the cycle reached with a session. *)
Lemma buildAndSync_reaches_sync C fuel o w e :
  In e (events (buildAndSync C fuel o w)) ->
  is_listing_call e || is_upload_call e = true ->
  exists a s w1 pre,
    buildAndSync C fuel o w = after pre (sync_stage C (path a) s w1) /\
    count_events is_upload_call pre = 0 /\
    In e (events (sync_stage C (path a) s w1)).
Proof.
  intros He Hk.
  destruct (buildAndSync_shape C fuel o w)
    as [(_ & _ & Hev) | [(e' & _ & _ & Hev) | (a & outs & l1 & Hb & Hl & Hc)]].
  - rewrite Hev in He. in_cases He; subst e; discriminate Hk.
  - rewrite Hev in He. in_cases He; subst e; discriminate Hk.
  - assert (Hl1 : forall e, In e l1 -> is_session_event e = true)
      by (now apply List.Forall_forall).
    assert (Hn : ~ In e l1).
    { intros Hin. apply Hl1, session_event_kinds in Hin as (_ & H1 & H2).
      rewrite H1, H2 in Hk. discriminate Hk. }
    destruct Hc as [[_ Hev] | (s & w1 & _ & Hrun)].
    + rewrite Hev in He. cbn [app In] in He.
      in_cases He; try (subst e; discriminate Hk).
    + exists a, s, w1. eexists. split; [exact Hrun|]. split.
      * rewrite count_events_app.
        rewrite (count_events_zero is_upload_call l1); [reflexivity|].
        eapply Forall_impl; [exact Hl|].
        intros x Hx. now apply session_event_kinds in Hx.
      * rewrite Hrun in He. unfold after in He; cbn [events] in He.
        rewrite <- app_assoc in He. cbn [app In] in He.
        in_cases He; try (subst e; discriminate Hk).
        apply in_app_or in He as [He|He]; [contradiction | exact He].
Qed.

(** C7.  In a cycle in which [getGames] returns an empty list, the sync
    spinner warns that there are no games, [sendCode] is not called, and
    [buildAndSync] returns normally: no exception, no exit. *)
Theorem no_games_is_a_warning (C : Collab) (fuel : nat) (o : SyncOptions)
    (w : World) (uid : string) :
  let r := buildAndSync C fuel o w in
  In (CallGetGames uid (Returns [])) (events r) ->
  result r = Done tt /\
  (exists pre,
     events r = pre ++ [CallGetGames uid (Returns []);
                        Spin syncSpinner (Warn "No current games.")]) /\
  count_events is_upload_call (events r) = 0.
Proof.
  intros r He. subst r.
  destruct (buildAndSync_reaches_sync C fuel o w _ He eq_refl)
    as (a & s & w1 & pre & Hrun & Hpre & Hin).
  rewrite Hrun. clear He Hrun. unfold after; cbn [result events].
  rewrite sync_stage_spec in Hin |- *. cbv zeta in Hin |- *.
  destruct (getGames_reply C (listings (calls w1)) (user_id s))
    as [[|g gs]|e]; cbn [events result] in Hin |- *.
  - in_cases Hin. injection Hin as ->.
    split; [reflexivity|]. split.
    + exists (pre ++ [Spin syncSpinner (Start None)]).
      now rewrite <- app_assoc.
    + rewrite count_events_app, Hpre. reflexivity.
  - destruct (fs w1 !! path a) as [code|]; cbn [events app] in Hin;
      in_cases Hin.
    destruct (sendCode_reply C (uploads (calls w1)) code (g :: gs) s)
      as [[|]|e]; in_cases Hin.
  - in_cases Hin.
Qed.

Lemma no_games_is_a_warning_witness :
  result (buildAndSync Sample.without_games 1 Sample.options Sample.project)
    = Done tt /\
  count_events is_upload_call
    (events (buildAndSync Sample.without_games 1 Sample.options Sample.project))
    = 0.
Proof.
  destruct (no_games_is_a_warning Sample.without_games 1 Sample.options
              Sample.project "bob") as (H1 & _ & H3).
  - vm_compute. repeat (first [left; reflexivity | right]).
  - split; assumption.
Defined.

(** C5.  In a cycle in which [sendCode] is called and returns a boolean,
    [buildAndSync] returns normally and the last report is made by the
    sync spinner: when the boolean is false, a failure; when it is true, a
    success whose message is the fixed text followed by the labels
    [server/id] of the games [getGames] returned, one label for each game,
    in the order of the list, separated by [", "]. *)
Theorem upload_outcome_reported (C : Collab) (fuel : nat) (o : SyncOptions)
    (w : World) (code : string) (gs : list Game) (s : Session) (b : bool) :
  let r := buildAndSync C fuel o w in
  In (CallSendCode code gs s (Returns b)) (events r) ->
  result r = Done tt /\
  (exists pre labels,
     events r = pre ++ [CallGetGames (user_id s) (Returns gs);
                        CallSendCode code gs s (Returns b);
                        Spin syncSpinner
                             (if b
                              then Succeed ("Uploaded your code to these games: "
                                            +:+ String.concat ", " labels)
                              else Fail "Upload to yare failed.")] /\
     Forall2 (fun g l => l = server g +:+ "/" +:+ id g) gs labels).
Proof.
  intros r He. subst r.
  destruct (buildAndSync_reaches_sync C fuel o w _ He eq_refl)
    as (a & s' & w1 & pre & Hrun & Hpre & Hin).
  rewrite Hrun. clear He Hrun. unfold after; cbn [result events].
  rewrite sync_stage_spec in Hin |- *. cbv zeta in Hin |- *.
  destruct (getGames_reply C (listings (calls w1)) (user_id s'))
    as [[|g gs']|e]; cbn [events result] in Hin |- *.
  - in_cases Hin.
  - destruct (fs w1 !! path a) as [code'|]; cbn [events result app] in Hin |- *;
      [|in_cases Hin].
    assert (Hlab : Forall2 (fun g l => l = server g +:+ "/" +:+ id g)
                           (g :: gs') (map game_label (g :: gs'))).
    { generalize (g :: gs'). intros l. induction l; constructor; auto. }
    destruct (sendCode_reply C (uploads (calls w1)) code' (g :: gs') s')
      as [[|]|e]; in_cases Hin; injection Hin as -> <- -> <-;
      (split; [reflexivity|]);
      exists (pre ++ [Spin syncSpinner (Start None)]),
             (map game_label (g :: gs'));
      (split; [rewrite <- app_assoc; reflexivity | exact Hlab]).
  - in_cases Hin.
Qed.

Lemma upload_outcome_reported_witness :
  result (buildAndSync Sample.working 1 Sample.options Sample.project)
    = Done tt /\
  last (events (buildAndSync Sample.working 1 Sample.options Sample.project))
    = Some (Spin syncSpinner
                 (Succeed "Uploaded your code to these games: a/1, b/2")).
Proof.
  destruct (upload_outcome_reported Sample.working 1 Sample.options
              Sample.project "code" Sample.two_games Sample.bob true)
    as (H1 & _).
  - vm_compute. repeat (first [left; reflexivity | right]).
  - split; [exact H1 | vm_compute; reflexivity].
Defined.

(** The sync stage works for the session it is given. *)
Lemma sync_stage_session C d s w :
  (forall uid rp, In (CallGetGames uid rp) (events (sync_stage C d s w)) ->
                  uid = user_id s) /\
  (forall code gs s' rp,
      In (CallSendCode code gs s' rp) (events (sync_stage C d s w)) -> s' = s).
Proof.
  rewrite sync_stage_spec. cbv zeta.
  destruct (getGames_reply C (listings (calls w)) (user_id s)) as [[|g gs]|e];
    cbn [events].
  - split; [intros uid rp H | intros code gs s' rp H]; in_cases H.
    now injection H.
  - destruct (fs w !! d) as [code|]; cbn [events app].
    + split; [intros uid rp H | intros code0 gs0 s' rp H].
      * destruct (sendCode_reply C (uploads (calls w)) code (g :: gs) s)
          as [[|]|e]; in_cases H; now injection H.
      * destruct (sendCode_reply C (uploads (calls w)) code (g :: gs) s)
          as [[|]|e]; in_cases H; now injection H.
    + split; [intros uid rp H | intros code gs0 s' rp H]; in_cases H.
      now injection H.
  - split; [intros uid rp H | intros code gs s' rp H]; in_cases H.
    now injection H.
Qed.

(** The bundler leaves alone a file that is not among its outputs. *)
Lemma built_world_keeps (w : World) (outs : list Artifact) (p : string) :
  Forall (fun a => path a <> p) outs ->
  fs (built_world w outs) !! p = fs w !! p.
Proof.
  unfold built_world, write_outputs; cbn [fs with_fs with_calls].
  generalize (fs w). induction outs as [|a outs IH]; intros d Hno;
    [reflexivity|].
  inversion Hno as [|? ? Ha Houts]; subst. cbn [foldl].
  rewrite IH by exact Houts. now apply lookup_insert_ne.
Qed.

(** C6.  In a cycle whose build succeeds, when the session file on disk
    holds a session that passes [verifySession], there is no call to
    [sync.login] and no question to the user: the cycle reports the user
    of the cached session and runs the sync stage with that session. *)
Theorem cached_session_reused (C : Collab) (fuel : nat) (o : SyncOptions)
    (w : World) (a : Artifact) (outs : list Artifact) (t : string)
    (s : Session) :
  is_Some (fs w !! file o) ->
  build_reply C (builds (calls w)) (file o) (negb (noMinify o))
    = Returns (a :: outs) ->
  fs (built_world w (a :: outs)) !! SESSION_FILE_PATH C = Some t ->
  JSON_parse C t = Some s ->
  verifySession C s = true ->
  let r := buildAndSync C fuel o w in
  r = after [Spin buildSpinner (Start None);
             CallBuild (file o) (negb (noMinify o)) (Returns (a :: outs));
             Spin buildSpinner (Succeed "Built");
             Spin loginSpinner (Start None);
             Spin loginSpinner
                  (Succeed ("Logged in as "
                            +:+ chalk C [green; bold] (user_id s)))]
            (sync_stage C (path a) s (built_world w (a :: outs))) /\
  count_events is_login_call (events r) = 0 /\
  count_events is_interaction (events r) = 0 /\
  (forall uid rp, In (CallGetGames uid rp) (events r) -> uid = user_id s) /\
  (forall code gs s' rp, In (CallSendCode code gs s' rp) (events r) -> s' = s).
Proof.
  intros Hf Hb Ht Hp Hv r. subst r.
  rewrite (buildAndSync_built C fuel o w a outs Hf Hb).
  erewrite bind_done by (eapply session_stage_cached; eassumption).
  rewrite after_after. cbn [app].
  split; [reflexivity|].
  unfold after; cbn [events].
  pose proof (sync_stage_produces C (path a) s (built_world w (a :: outs)))
    as Hs.
  destruct (sync_stage_session C (path a) s (built_world w (a :: outs)))
    as [Hg Hu].
  repeat split.
  - rewrite (count_events_app is_login_call
               [_; _; _; _; _] (events (sync_stage C _ _ _))).
    rewrite (count_events_zero is_login_call (events (sync_stage C _ _ _)));
      [reflexivity|].
    eapply Forall_impl; [exact Hs|]. now intros x (_ & Hx & _).
  - rewrite (count_events_app is_interaction
               [_; _; _; _; _] (events (sync_stage C _ _ _))).
    rewrite (count_events_zero is_interaction (events (sync_stage C _ _ _)));
      [reflexivity|].
    eapply Forall_impl; [exact Hs|]. now intros x (_ & _ & Hx).
  - intros uid rp H. cbn [In] in H.
    repeat (destruct H as [H|H]; [discriminate H|]). eauto.
  - intros code gs s' rp H. cbn [In] in H.
    repeat (destruct H as [H|H]; [discriminate H|]). eauto.
Qed.

Lemma cached_session_reused_witness :
  count_events is_login_call
    (events (buildAndSync Sample.refusing_twice 0 Sample.options Sample.cached))
    = 0 /\
  count_events is_interaction
    (events (buildAndSync Sample.refusing_twice 0 Sample.options Sample.cached))
    = 0 /\
  result (buildAndSync Sample.refusing_twice 0 Sample.options Sample.cached)
    = Done tt.
Proof.
  destruct (cached_session_reused Sample.refusing_twice 0 Sample.options
              Sample.cached Sample.bundle []
              (Sample.stringify Sample.alice) Sample.alice)
    as (_ & H1 & H2 & _); try (vm_compute; reflexivity).
  - vm_compute. eauto.
  - split; [exact H1|]. split; [exact H2|]. vm_compute; reflexivity.
Defined.

(** ** Further properties *)

(** *** The session store *)

(** X1.  [saveSession] and [getExistingSession] round-trip: whatever the
    session file held before (nothing, another session, text that is not
    JSON), after [saveSession s] the next [getExistingSession] reads [s]
    back, and returns it when it passes [verifySession] and null when it
    does not; of two saves the later one is the one on disk.  The codec is
    assumed to read back what it prints for [s]. *)
Theorem save_then_load (C : Collab) (s : Session) (w : World) :
  JSON_parse C (JSON_stringify C s) = Some s ->
  result (getExistingSession C (world (saveSession C s w)))
    = Done (if verifySession C s then Some s else None) /\
  (forall s0,
      fs (world (saveSession C s (world (saveSession C s0 w))))
      = fs (world (saveSession C s w))).
Proof.
  intros Hrt. split.
  - rewrite getExistingSession_spec, saveSession_spec.
    cbn [world result fs with_fs].
    now rewrite lookup_insert_eq, Hrt.
  - intros s0. rewrite !saveSession_spec. cbn [world fs with_fs].
    apply insert_insert_eq.
Qed.

Lemma save_then_load_witness :
  result (getExistingSession Sample.working
            (world (saveSession Sample.working Sample.alice Sample.corrupt)))
    = Done (Some Sample.alice) /\
  result (getExistingSession Sample.working
            (world (saveSession Sample.working Sample.stale Sample.logged_in)))
    = Done None.
Proof.
  split.
  - apply (save_then_load Sample.working Sample.alice Sample.corrupt).
    vm_compute; reflexivity.
  - apply (save_then_load Sample.working Sample.stale Sample.logged_in).
    vm_compute; reflexivity.
Defined.

(** *** Logout *)

Lemma logout_spec C w :
  logout C w =
  match fs w !! SESSION_FILE_PATH C with
  | Some _ =>
      MkRun (Done tt) (with_fs (delete (SESSION_FILE_PATH C) (fs w)) w)
            [Spin (ora "Log out") (Start (Some "Logging out"));
             FsUnlink (SESSION_FILE_PATH C);
             Spin (ora "Log out") (Succeed "Logged out")]
  | None =>
      MkRun (Thrown (ENOENT (SESSION_FILE_PATH C))) w
            [Spin (ora "Log out") (Start (Some "Logging out"))]
  end.
Proof.
  unfold logout. cbv zeta.
  erewrite bind_done by reflexivity.
  unfold fs_unlinkSync.
  destruct (fs w !! SESSION_FILE_PATH C) as [t|] eqn:E.
  - erewrite bind_done by (unfold fs_unlinkSync; rewrite E; reflexivity).
    reflexivity.
  - erewrite bind_thrown by (unfold fs_unlinkSync; rewrite E; reflexivity).
    reflexivity.
Qed.

(** X2.  Logging out when there is no session file throws: the [ENOENT]
    of [fs.unlinkSync] leaves the action, after the spinner was started
    and before anything is reported as done, and the world is as it was.
    So a logout that follows a successful logout throws. *)
Theorem logout_without_session_throws (C : Collab) (w : World) :
  (fs w !! SESSION_FILE_PATH C = None ->
   logout C w =
   MkRun (Thrown (ENOENT (SESSION_FILE_PATH C))) w
         [Spin (ora "Log out") (Start (Some "Logging out"))]) /\
  (result (logout C w) = Done tt ->
   result (logout C (world (logout C w)))
     = Thrown (ENOENT (SESSION_FILE_PATH C))).
Proof.
  split.
  - intros H. now rewrite logout_spec, H.
  - rewrite !logout_spec.
    destruct (fs w !! SESSION_FILE_PATH C) as [t|]; [|discriminate].
    intros _. cbn [world fs with_fs]. now rewrite lookup_delete_eq.
Qed.

Lemma logout_without_session_throws_witness :
  result (logout Sample.working Sample.bare)
    = Thrown (ENOENT Sample.session_path) /\
  result (logout Sample.working (world (logout Sample.working Sample.logged_in)))
    = Thrown (ENOENT Sample.session_path).
Proof.
  destruct (logout_without_session_throws Sample.working Sample.bare)
    as [H1 _].
  destruct (logout_without_session_throws Sample.working Sample.logged_in)
    as [_ H2].
  split.
  - rewrite H1 by (vm_compute; reflexivity). reflexivity.
  - apply H2. vm_compute; reflexivity.
Defined.

(** X3.  Logout succeeds exactly when there is a session file, whatever
    the file holds; it removes that file and nothing else: every other
    file, the environment and the call counters are as they were. *)
Theorem logout_removes_only_session (C : Collab) (w : World) :
  (result (logout C w) = Done tt <-> is_Some (fs w !! SESSION_FILE_PATH C)) /\
  (forall p, p <> SESSION_FILE_PATH C ->
             fs (world (logout C w)) !! p = fs w !! p) /\
  environ (world (logout C w)) = environ w /\
  calls (world (logout C w)) = calls w.
Proof.
  rewrite logout_spec.
  destruct (fs w !! SESSION_FILE_PATH C) as [t|]; cbn [result world];
    repeat split; try reflexivity; eauto.
  - intros p Hp. cbn [fs with_fs]. now apply lookup_delete_ne.
  - discriminate.
  - intros [x Hx]. discriminate Hx.
Qed.

Lemma logout_removes_only_session_witness :
  result (logout Sample.working Sample.corrupt) = Done tt /\
  fs (world (logout Sample.working Sample.cached)) !! "src/index.ts"
    = Some "export {}".
Proof.
  destruct (logout_removes_only_session Sample.working Sample.corrupt)
    as [H1 _].
  destruct (logout_removes_only_session Sample.working Sample.cached)
    as (_ & H2 & _).
  split.
  - apply H1. vm_compute. eauto.
  - rewrite H2 by (vm_compute; discriminate). vm_compute; reflexivity.
Defined.

(** *** What a computation leaves alone *)

Lemma same_except_refl P w : same_except P w w.
Proof. repeat split; auto. Qed.

Lemma same_except_trans P w1 w2 w3 :
  same_except P w1 w2 -> same_except P w2 w3 -> same_except P w1 w3.
Proof.
  intros (E1 & F1 & K1) (E2 & F2 & K2). repeat split.
  - congruence.
  - intros p Hp. rewrite F2, F1 by exact Hp. reflexivity.
  - auto.
Qed.

Lemma same_except_calls P w c : same_except P w (with_calls c w).
Proof. repeat split; auto. Qed.

Lemma same_except_insert (P : string -> Prop) w p t :
  P p -> same_except P w (with_fs (<[p := t]> (fs w)) w).
Proof.
  intros Hp. repeat split; cbn [fs with_fs environ].
  - intros q Hq. apply lookup_insert_ne. congruence.
  - intros q Hq. destruct (decide (p = q)) as [->|Hne].
    + rewrite lookup_insert_eq. eauto.
    + now rewrite lookup_insert_ne.
Qed.

Lemma same_except_weaken (P Q : string -> Prop) w w' :
  (forall p, P p -> Q p) -> same_except P w w' -> same_except Q w w'.
Proof. intros H (E & F & K). repeat split; auto. Qed.

(** No path is excepted: the disk is the same. *)
Lemma same_except_nothing w w' :
  same_except (fun _ => False) w w' -> fs w' = fs w.
Proof. intros (_ & F & _). apply map_eq. intros p. apply F. tauto. Qed.

Lemma changes_only_ret {A} P (a : A) : changes_only P (ret a).
Proof. intros w. apply same_except_refl. Qed.

Lemma changes_only_throw {A} P e : changes_only P (@throw A e).
Proof. intros w. apply same_except_refl. Qed.

Lemma changes_only_out_of_fuel {A} P : changes_only P (@out_of_fuel A).
Proof. intros w. apply same_except_refl. Qed.

Lemma changes_only_process_exit {A} P c : changes_only P (@process_exit A c).
Proof. intros w. apply same_except_refl. Qed.

Lemma changes_only_emit P ev : changes_only P (emit ev).
Proof. intros w. apply same_except_refl. Qed.

Lemma changes_only_spin P sp op : changes_only P (spin sp op).
Proof. intros w. apply same_except_refl. Qed.

Lemma changes_only_spin_opt P sp op : changes_only P (spin_opt sp op).
Proof. intros w. destruct sp; apply same_except_refl. Qed.

Lemma changes_only_console_error P e : changes_only P (console_error e).
Proof. intros w. apply same_except_refl. Qed.

Lemma changes_only_bind {A B} P (m : M A) (f : A -> M B) :
  changes_only P m -> (forall a, changes_only P (f a)) ->
  changes_only P (bind m f).
Proof.
  intros Hm Hf w. unfold bind. specialize (Hm w).
  destruct (m w) as [[a|e|c|] w1 l1]; cbn [world] in *; try assumption.
  specialize (Hf a w1). destruct (f a w1) as [r w2 l2]; cbn [world] in *.
  eapply same_except_trans; eassumption.
Qed.

Lemma changes_only_try_catch {A} P (m : M A) (h : Exn -> M A) :
  changes_only P m -> (forall e, changes_only P (h e)) ->
  changes_only P (try_catch m h).
Proof.
  intros Hm Hh w. unfold try_catch. specialize (Hm w).
  destruct (m w) as [[a|e|c|] w1 l1]; cbn [world] in *; try assumption.
  specialize (Hh e w1). destruct (h e w1) as [r w2 l2]; cbn [world] in *.
  eapply same_except_trans; eassumption.
Qed.

Lemma changes_only_weaken {A} (P Q : string -> Prop) (m : M A) :
  (forall p, P p -> Q p) -> changes_only P m -> changes_only Q m.
Proof. intros H Hm w. eapply same_except_weaken; [exact H | apply Hm]. Qed.

Lemma changes_only_Bun_env P name : changes_only P (Bun_env name).
Proof. intros w. apply same_except_refl. Qed.

Lemma changes_only_Bun_file_text P p : changes_only P (Bun_file_text p).
Proof.
  intros w. unfold Bun_file_text. destruct (fs w !! p); apply same_except_refl.
Qed.

Lemma changes_only_getExistingSession C P :
  changes_only P (getExistingSession C).
Proof. intros w. rewrite getExistingSession_spec. apply same_except_refl. Qed.

Lemma changes_only_sync_login C P u p : changes_only P (sync_login C u p).
Proof.
  intros w. unfold sync_login.
  destruct (login_reply C (logins (calls w)) u p); apply same_except_calls.
Qed.

Lemma changes_only_sync_getGames C P uid : changes_only P (sync_getGames C uid).
Proof.
  intros w. unfold sync_getGames.
  destruct (getGames_reply C (listings (calls w)) uid); apply same_except_calls.
Qed.

Lemma changes_only_sync_sendCode C P code gs s :
  changes_only P (sync_sendCode C code gs s).
Proof.
  intros w. unfold sync_sendCode.
  destruct (sendCode_reply C (uploads (calls w)) code gs s);
    apply same_except_calls.
Qed.

Lemma changes_only_createPrompt C P label masked :
  changes_only P (createPrompt C label masked).
Proof. intros w. apply same_except_calls. Qed.

Lemma changes_only_createSelection C P options header :
  changes_only P (createSelection C options header).
Proof. intros w. apply same_except_calls. Qed.

Lemma changes_only_saveSession C (P : string -> Prop) s :
  P (SESSION_FILE_PATH C) -> changes_only P (saveSession C s).
Proof. intros H w. now apply same_except_insert. Qed.

Lemma changes_only_fs_appendFileSync C (P : string -> Prop) p t :
  P p -> changes_only P (fs_appendFileSync C p t).
Proof.
  intros H w. unfold fs_appendFileSync.
  destruct (append_error C (fs w) p); simpl.
  - apply same_except_refl.
  - now apply same_except_insert.
Qed.

Create HintDb frames.

#[local] Hint Resolve changes_only_ret changes_only_throw
  changes_only_out_of_fuel changes_only_process_exit changes_only_emit
  changes_only_spin changes_only_spin_opt changes_only_console_error
  changes_only_bind changes_only_try_catch changes_only_Bun_env
  changes_only_Bun_file_text changes_only_getExistingSession
  changes_only_sync_login changes_only_sync_getGames
  changes_only_sync_sendCode changes_only_createPrompt
  changes_only_createSelection changes_only_saveSession
  changes_only_fs_appendFileSync : frames.

(** The retry loop writes nothing. *)
Lemma login_loop_changes_nothing C fuel sp :
  changes_only (fun _ => False) (login_loop C fuel sp).
Proof.
  induction fuel as [|fuel IH]; cbn [login_loop]; [auto with frames|].
  apply changes_only_bind; [unfold getCreds; auto 7 with frames|].
  intros creds.
  apply changes_only_bind; [auto 8 with frames|].
  intros [s|]; auto with frames.
Qed.

Lemma login_changes_only C fuel envf sp :
  changes_only (login_files C envf) (login C fuel envf sp).
Proof.
  assert (Hs : login_files C envf (SESSION_FILE_PATH C)) by now left.
  assert (He : login_files C envf (path_resolve C "." envf)) by now right.
  assert (Hloop : changes_only (login_files C envf) (login_loop C fuel sp)).
  { eapply changes_only_weaken; [|apply login_loop_changes_nothing].
    intros p []. }
  unfold login.
  apply changes_only_bind; [auto with frames|]. intros yl.
  apply changes_only_bind; [auto with frames|]. intros yp.
  destruct (negb (truthy yl) || negb (truthy yp)); [|auto 7 with frames].
  apply changes_only_bind; [auto with frames|]. intros _.
  apply changes_only_bind; [exact Hloop|]. intros [[u p] s].
  apply changes_only_bind; [auto with frames|]. intros _.
  apply changes_only_bind; [auto with frames|]. intros i.
  destruct (Nat.eqb i 0); auto 7 with frames.
Qed.

Lemma session_stage_changes_only C fuel envf :
  changes_only (login_files C envf) (session_stage C fuel envf).
Proof.
  pose proof (login_changes_only C fuel envf (Some loginSpinner)) as Hlogin.
  unfold session_stage.
  apply changes_only_bind; [auto with frames|]. intros _.
  apply changes_only_bind; [auto with frames|]. intros [s|];
    auto 8 with frames.
Qed.

Lemma sync_stage_changes_nothing C d s :
  changes_only (fun _ => False) (sync_stage C d s).
Proof.
  unfold sync_stage.
  apply changes_only_bind; [auto with frames|]. intros _.
  apply changes_only_bind; [auto with frames|]. intros games.
  destruct (Nat.eqb (length games) 0); [auto with frames|].
  apply changes_only_bind; [auto with frames|]. intros code.
  apply changes_only_bind; [auto with frames|]. intros [|];
    auto with frames.
Qed.

(** *** What never ends the process *)

Lemma never_exits_ret {A} (a : A) : never_exits (ret a).
Proof. intros w c. discriminate. Qed.

Lemma never_exits_emit ev : never_exits (emit ev).
Proof. intros w c. discriminate. Qed.

Lemma never_exits_spin sp op : never_exits (spin sp op).
Proof. intros w c. discriminate. Qed.

Lemma never_exits_bind {A B} (m : M A) (f : A -> M B) :
  never_exits m -> (forall a, never_exits (f a)) -> never_exits (bind m f).
Proof.
  intros Hm Hf w c. unfold bind. specialize (Hm w).
  destruct (m w) as [[a|e|c'|] w1 l1]; cbn [result] in *; try discriminate.
  - specialize (Hf a w1 c). now destruct (f a w1) as [r w2 l2].
  - now destruct (Hm c').
Qed.

Lemma never_exits_getExistingSession C : never_exits (getExistingSession C).
Proof.
  intros w c. rewrite getExistingSession_spec. cbn [result].
  destruct (fs w !! SESSION_FILE_PATH C) as [t|]; [|discriminate].
  destruct (JSON_parse C t); discriminate.
Qed.

(** The retry loop ends with a session or is cut off: a refused attempt
    is caught, so no exception leaves the loop. *)
Lemma login_loop_ends C sp :
  forall fuel w,
    (exists x, result (login_loop C fuel sp w) = Done x) \/
    result (login_loop C fuel sp w) = OutOfFuel.
Proof.
  induction fuel as [|fuel IH]; intros w; [right; reflexivity|].
  destruct (attempt_reply C w 0) as [s|e] eqn:E.
  - left. rewrite (login_loop_round_ok C fuel sp w s E). eauto.
  - rewrite (login_loop_round_fails C fuel sp w e E).
    unfold after; cbn [result]. apply IH.
Qed.

(** How [login] ends in interactive mode when the loop is cut off. *)
Lemma login_interactive_cut_off C fuel envf sp w :
  interactive_mode w = true ->
  result (login_loop C fuel sp w) = OutOfFuel ->
  result (login C fuel envf sp w) = OutOfFuel /\
  fs (world (login C fuel envf sp w)) = fs w.
Proof.
  unfold interactive_mode. intros Hi Hl. unfold login.
  erewrite bind_done by reflexivity.
  erewrite bind_done by reflexivity.
  rewrite Hi.
  erewrite bind_done by apply spin_opt_spec.
  pose proof (login_loop_changes_nothing C fuel sp w) as Hfr.
  destruct (login_loop C fuel sp w) as [[x|e|c|] w1 l1] eqn:E;
    cbn [result world] in *; try discriminate Hl.
  erewrite bind_out_of_fuel by exact E.
  unfold after; cbn [result world]. split; [reflexivity|].
  now apply same_except_nothing.
Qed.

(** [login] returns a session, or is cut off while asking, or throws:
    with credentials from the environment what [sync.login] threw, in
    interactive mode only the error of [fs.appendFileSync] on the env
    file. *)
Lemma login_ends C fuel envf sp w :
  (exists s, result (login C fuel envf sp w) = Done s) \/
  result (login C fuel envf sp w) = OutOfFuel \/
  (exists e, result (login C fuel envf sp w) = Thrown e /\
             (interactive_mode w = true ->
              save_creds_error C envf w = Some e)).
Proof.
  destruct (interactive_mode w) eqn:Hi.
  - destruct (login_loop_ends C sp fuel w) as [[[[u p] s] Hx] | Hcut].
    + pose proof (save_creds_error_after_loop C fuel envf sp w) as Hsame.
      destruct (login_loop C fuel sp w) as [r w1 l1] eqn:E.
      cbn [result world] in Hx, Hsame. subst r.
      destruct (save_creds_error C envf w) as [e|] eqn:Ha.
      * right; right. exists e.
        rewrite (login_interactive_thrown C fuel envf sp w u p s w1 l1 e
                   Hi E Hsame).
        split; reflexivity.
      * left. exists s.
        destruct (login_interactive_done C fuel envf sp w u p s w1 l1 Hi E
                    Hsame) as (w2 & Hrun & _).
        now rewrite Hrun.
    + right; left. now apply login_interactive_cut_off.
  - unfold interactive_mode in Hi. apply orb_false_elim in Hi as [Hu Hp].
    apply negb_false_iff, truthy_inv in Hu as (u & Hu & Hu').
    apply negb_false_iff, truthy_inv in Hp as (p & Hp & Hp').
    rewrite (login_automation C fuel envf sp w u p) by assumption.
    unfold bind, sync_login.
    destruct (login_reply C (logins (calls w)) u p) as [s|e];
      cbn [saveSession Bun_write ret result]; [eauto|].
    right; right. exists e. split; [reflexivity | discriminate].
Qed.

Lemma never_exits_login C fuel envf sp : never_exits (login C fuel envf sp).
Proof.
  intros w c.
  destruct (login_ends C fuel envf sp w) as [[s H] | [H | (e & H & _)]];
    rewrite H; discriminate.
Qed.





(** *** The cycle and the disk *)

Lemma write_outputs_keeps (outs : list Artifact) (d : gmap string string) p :
  Forall (fun a => path a <> p) outs -> write_outputs outs d !! p = d !! p.
Proof.
  unfold write_outputs. revert d.
  induction outs as [|a outs IH]; intros d Hno; [reflexivity|].
  inversion Hno as [|? ? Ha Houts]; subst. cbn [foldl].
  rewrite IH by exact Houts. now apply lookup_insert_ne.
Qed.

Lemma write_outputs_grows (outs : list Artifact) (d : gmap string string) p :
  is_Some (d !! p) -> is_Some (write_outputs outs d !! p).
Proof.
  unfold write_outputs. revert d.
  induction outs as [|a outs IH]; intros d Hd; [exact Hd|].
  cbn [foldl]. apply IH.
  destruct (decide (path a = p)) as [->|Hne].
  - rewrite lookup_insert_eq. eauto.
  - now rewrite lookup_insert_ne.
Qed.

(** The first output, when no later output has its path, is on disk as
    the bundler gave it. *)
Lemma write_outputs_first a outs d :
  Forall (fun b => path b <> path a) outs ->
  write_outputs (a :: outs) d !! path a = Some (body a).
Proof.
  intros H. unfold write_outputs. cbn [foldl].
  fold (write_outputs outs (<[path a := body a]> d)).
  rewrite write_outputs_keeps by exact H. apply lookup_insert_eq.
Qed.

(** The run of a cycle whose build fails. *)
Lemma buildAndSync_fault_world C fuel o w e :
  is_Some (fs w !! file o) ->
  build_fault (build_reply C (builds (calls w)) (file o) (negb (noMinify o)))
    = Some e ->
  fs (world (buildAndSync C fuel o w)) = fs w /\
  environ (world (buildAndSync C fuel o w)) = environ w.
Proof.
  intros Hf Hb. rewrite buildAndSync_present by exact Hf.
  destruct (build_reply C (builds (calls w)) (file o) (negb (noMinify o)))
    as [[|a outs]|e'] eqn:E; simpl in Hb; try discriminate;
    (erewrite bind_exited
       by (rewrite build_stage_spec; cbv zeta; rewrite E; reflexivity));
    split; reflexivity.
Qed.

(** After the build, the rest of the cycle writes the session file and
    the env file at most. *)
Lemma rest_of_cycle_changes_only C fuel envf d :
  changes_only (login_files C envf)
    (bind (session_stage C fuel envf) (fun session => sync_stage C d session)).
Proof.
  apply changes_only_bind; [apply session_stage_changes_only|].
  intros s. eapply changes_only_weaken; [|apply sync_stage_changes_nothing].
  intros p [].
Qed.

(** A cycle deletes no file. *)
Lemma cycle_keeps_files C fuel o w p :
  is_Some (fs w !! p) -> is_Some (fs (world (buildAndSync C fuel o w)) !! p).
Proof.
  intros Hp.
  destruct (fs w !! file o) as [t|] eqn:Hf.
  2:{ now rewrite (buildAndSync_missing C fuel o w Hf). }
  assert (Hs : is_Some (fs w !! file o)) by (rewrite Hf; eauto).
  destruct (build_fault
              (build_reply C (builds (calls w)) (file o) (negb (noMinify o))))
    as [e|] eqn:Hb.
  { destruct (buildAndSync_fault_world C fuel o w e Hs Hb) as [Hfs _].
    now rewrite Hfs. }
  destruct (build_reply C (builds (calls w)) (file o) (negb (noMinify o)))
    as [[|a outs]|e] eqn:E; try discriminate Hb.
  rewrite (buildAndSync_built C fuel o w a outs Hs E).
  unfold after; cbn [world].
  destruct (rest_of_cycle_changes_only C fuel (env o) (path a)
              (built_world w (a :: outs))) as (_ & _ & Hkeep).
  apply Hkeep. now apply write_outputs_grows.
Qed.

(** X6.  A cycle leaves the environment as it is and deletes no file;
    on disk it changes at most the outputs the bundler wrote, the session
    file and the env file. *)
Theorem cycle_changes_only (C : Collab) (fuel : nat) (o : SyncOptions)
    (w : World) :
  let r := buildAndSync C fuel o w in
  environ (world r) = environ w /\
  (forall p, is_Some (fs w !! p) -> is_Some (fs (world r) !! p)) /\
  (forall p,
      p <> SESSION_FILE_PATH C ->
      p <> path_resolve C "." (env o) ->
      (forall outs,
          build_reply C (builds (calls w)) (file o) (negb (noMinify o))
            = Returns outs ->
          Forall (fun a => path a <> p) outs) ->
      fs (world r) !! p = fs w !! p).
Proof.
  intros r. subst r.
  destruct (fs w !! file o) as [t|] eqn:Hf.
  2:{ rewrite (buildAndSync_missing C fuel o w Hf). cbn [world]. auto. }
  assert (Hs : is_Some (fs w !! file o)) by (rewrite Hf; eauto).
  destruct (build_fault
              (build_reply C (builds (calls w)) (file o) (negb (noMinify o))))
    as [e|] eqn:Hb.
  { destruct (buildAndSync_fault_world C fuel o w e Hs Hb) as [Hfs Henv].
    rewrite Hfs, Henv. auto. }
  destruct (build_reply C (builds (calls w)) (file o) (negb (noMinify o)))
    as [[|a outs]|e] eqn:E; try discriminate Hb.
  rewrite (buildAndSync_built C fuel o w a outs Hs E).
  unfold after; cbn [world].
  destruct (rest_of_cycle_changes_only C fuel (env o) (path a)
              (built_world w (a :: outs))) as (Henv & Hfr & Hkeep).
  split; [exact Henv|]. split.
  - intros p Hp.
    pose proof (cycle_keeps_files C fuel o w p Hp) as Hk.
    rewrite (buildAndSync_built C fuel o w a outs Hs E) in Hk. exact Hk.
  - intros p Hp1 Hp2 Houts. rewrite Hfr.
    + apply built_world_keeps. now apply Houts.
    + intros [H|H]; congruence.
Qed.

Lemma cycle_changes_only_witness :
  fs (world (buildAndSync Sample.refusing_twice 3 Sample.options Sample.bare))
    !! "src/index.ts" = None /\
  fs (world (buildAndSync Sample.working 1 Sample.options Sample.project))
    !! "src/index.ts" = Some "export {}".
Proof.
  destruct (cycle_changes_only Sample.refusing_twice 3 Sample.options
              Sample.bare) as (_ & _ & H1).
  destruct (cycle_changes_only Sample.working 1 Sample.options
              Sample.project) as (_ & _ & H2).
  split.
  - rewrite H1; [reflexivity | vm_compute; discriminate
                | vm_compute; discriminate |].
    intros outs Ho. vm_compute in Ho. injection Ho as <-.
    repeat constructor. vm_compute; discriminate.
  - rewrite H2; [reflexivity | vm_compute; discriminate
                | vm_compute; discriminate |].
    intros outs Ho. vm_compute in Ho. injection Ho as <-.
    repeat constructor. vm_compute; discriminate.
Defined.

(** *** How a cycle ends *)

Lemma never_exits_session_stage C fuel envf :
  never_exits (session_stage C fuel envf).
Proof.
  unfold session_stage.
  apply never_exits_bind; [apply never_exits_spin|]. intros _.
  apply never_exits_bind; [apply never_exits_getExistingSession|].
  intros cached. apply never_exits_bind.
  - destruct cached; [apply never_exits_ret|].
    apply never_exits_bind; [apply never_exits_spin|]. intros _.
    apply never_exits_login.
  - intros s. apply never_exits_bind; [apply never_exits_spin|].
    intros _. apply never_exits_ret.
Qed.

Lemma never_exits_sync_stage C d s : never_exits (sync_stage C d s).
Proof.
  intros w c. rewrite sync_stage_spec. cbv zeta.
  destruct (getGames_reply C (listings (calls w)) (user_id s)) as [[|g gs]|e];
    try discriminate.
  destruct (fs w !! d) as [code|]; try discriminate. cbn [result].
  destruct (sendCode_reply C (uploads (calls w)) code (g :: gs) s);
    discriminate.
Qed.

(** When a cycle ends the process, it does so before the session stage. *)
Lemma buildAndSync_exit_cases C fuel o w c :
  result (buildAndSync C fuel o w) = Exited c ->
  (c = 9%Z /\ fs w !! file o = None) \/
  (c = 1%Z /\ is_Some (fs w !! file o) /\
   exists e,
     build_fault (build_reply C (builds (calls w)) (file o) (negb (noMinify o)))
       = Some e).
Proof.
  intros Hr.
  destruct (fs w !! file o) as [t|] eqn:Hf.
  2:{ left. rewrite (buildAndSync_missing C fuel o w Hf) in Hr.
      injection Hr as <-. auto. }
  assert (Hs : is_Some (fs w !! file o)) by (rewrite Hf; eauto).
  right.
  destruct (build_fault
              (build_reply C (builds (calls w)) (file o) (negb (noMinify o))))
    as [e|] eqn:Hb.
  { destruct (buildAndSync_build_fault C fuel o w e Hs Hb) as [Hr' _].
    rewrite Hr' in Hr. injection Hr as <-. eauto. }
  exfalso.
  destruct (build_reply C (builds (calls w)) (file o) (negb (noMinify o)))
    as [[|a outs]|e] eqn:E; try discriminate Hb.
  rewrite (buildAndSync_built C fuel o w a outs Hs E) in Hr.
  unfold after in Hr; cbn [result] in Hr. revert Hr.
  apply never_exits_bind; [apply never_exits_session_stage|].
  intros s. apply never_exits_sync_stage.
Qed.

Lemma bind_assoc {A B D} (m : M A) (f : A -> M B) (g : B -> M D) w :
  bind (bind m f) g w = bind m (fun x => bind (f x) g) w.
Proof.
  unfold bind. destruct (m w) as [[a|e|c|] w1 l1]; try reflexivity.
  destruct (f a w1) as [[b|e|c|] w2 l2]; try reflexivity.
  destruct (g b w2) as [r w3 l3]. now rewrite app_assoc.
Qed.

(** Without a usable cached session the session stage is a login. *)
Lemma session_stage_login C fuel envf w :
  getExistingSession C w = MkRun (Done None) w [] ->
  session_stage C fuel envf w =
  after [Spin loginSpinner (Start None); Spin loginSpinner Clear]
        (bind (login C fuel envf (Some loginSpinner))
              (fun session =>
                 bind (spin loginSpinner
                         (Succeed ("Logged in as "
                                   +:+ chalk C [green; bold] (user_id session))))
                      (fun _ => ret session)) w).
Proof.
  intros Hg. unfold session_stage.
  erewrite bind_done by reflexivity.
  erewrite bind_done by exact Hg.
  rewrite after_nil, bind_assoc.
  erewrite bind_done by reflexivity.
  now rewrite after_after.
Qed.

(** With credentials from the environment and no session file, a login
    that [sync.login] refuses leaves the session stage as the exception
    [sync.login] threw. *)
Lemma session_stage_login_refused C fuel envf w u p e :
  fs w !! SESSION_FILE_PATH C = None ->
  environ w !! "YARE_LOGIN" = Some u -> u <> EmptyString ->
  environ w !! "YARE_PASSWORD" = Some p -> p <> EmptyString ->
  login_reply C (logins (calls w)) u p = Raises e ->
  result (session_stage C fuel envf w) = Thrown e.
Proof.
  intros Hf Hu Hu' Hp Hp' Hl.
  rewrite session_stage_login
    by (rewrite getExistingSession_spec, Hf; reflexivity).
  unfold after. cbn [result].
  erewrite bind_thrown; [reflexivity|].
  rewrite (login_automation C fuel envf (Some loginSpinner) w u p)
    by assumption.
  apply bind_thrown. unfold sync_login. cbv zeta. rewrite Hl. reflexivity.
Qed.

(** X7.  How a cycle ends other than by returning.  It calls
    [process.exit] in two cases only, and in these two it always does:
    with code 9 exactly when the entrypoint file does not exist, and with
    code 1 exactly when the entrypoint exists and the bundler threw or
    returned no output.  Nothing after the build stage calls
    [process.exit]; what fails there leaves the cycle as an exception
    that nothing in the cycle catches.  So an exception leaves a cycle
    only after the bundle was built and reported, and a login with the
    credentials of the environment that [sync.login] refuses does leave
    it, as the exception [sync.login] threw. *)
Theorem cycle_exit_codes (C : Collab) (fuel : nat) (o : SyncOptions)
    (w : World) :
  let r := buildAndSync C fuel o w in
  let rp := build_reply C (builds (calls w)) (file o) (negb (noMinify o)) in
  (result r = Exited 9 <-> fs w !! file o = None) /\
  (result r = Exited 1 <->
   is_Some (fs w !! file o) /\ exists e, build_fault rp = Some e) /\
  (forall c, result r = Exited c -> c = 9%Z \/ c = 1%Z) /\
  (forall e,
      result r = Thrown e ->
      is_Some (fs w !! file o) /\
      (exists a outs, rp = Returns (a :: outs)) /\
      In (Spin buildSpinner (Succeed "Built")) (events r)) /\
  (forall a outs u p e,
      is_Some (fs w !! file o) ->
      rp = Returns (a :: outs) ->
      write_outputs (a :: outs) (fs w) !! SESSION_FILE_PATH C = None ->
      environ w !! "YARE_LOGIN" = Some u -> u <> EmptyString ->
      environ w !! "YARE_PASSWORD" = Some p -> p <> EmptyString ->
      login_reply C (logins (calls w)) u p = Raises e ->
      result r = Thrown e).
Proof.
  intros r rp. subst r rp. split; [|split; [|split; [|split]]].
  - split.
    + intros H. apply buildAndSync_exit_cases in H
        as [[_ H] | (H & _)]; [exact H | discriminate H].
    + intros H. now rewrite (buildAndSync_missing C fuel o w H).
  - split.
    + intros H. apply buildAndSync_exit_cases in H
        as [[H _] | (_ & H)]; [discriminate H | exact H].
    + intros (Hf & e & He).
      now destruct (buildAndSync_build_fault C fuel o w e Hf He).
  - intros c H. apply buildAndSync_exit_cases in H as [[H _] | (H & _)]; auto.
  - intros e Hr.
    destruct (fs w !! file o) as [t|] eqn:Hf.
    2:{ rewrite (buildAndSync_missing C fuel o w Hf) in Hr. discriminate Hr. }
    assert (Hs : is_Some (fs w !! file o)) by (rewrite Hf; eauto).
    rewrite Hf in Hs.
    destruct (build_fault
                (build_reply C (builds (calls w)) (file o) (negb (noMinify o))))
      as [e'|] eqn:Hb.
    { rewrite <- Hf in Hs.
      destruct (buildAndSync_build_fault C fuel o w e' Hs Hb) as [Hr' _].
      rewrite Hr' in Hr. discriminate Hr. }
    destruct (build_reply C (builds (calls w)) (file o) (negb (noMinify o)))
      as [[|a outs]|e'] eqn:E; try discriminate Hb.
    split; [exact Hs|]. split; [eauto|].
    rewrite <- Hf in Hs.
    rewrite (buildAndSync_built C fuel o w a outs Hs E).
    unfold after. cbn [events app In]. auto.
  - intros a outs u p e Hs Hb Hnone Hu Hu' Hp Hp' Hl.
    rewrite (buildAndSync_built C fuel o w a outs Hs Hb).
    unfold after. cbn [result].
    pose proof (session_stage_login_refused C fuel (env o)
                  (built_world w (a :: outs)) u p e Hnone Hu Hu' Hp Hp' Hl)
      as Hst.
    destruct (session_stage C fuel (env o) (built_world w (a :: outs)))
      as [rs ws ls] eqn:Es.
    cbn [result] in Hst. subst rs.
    now erewrite bind_thrown by exact Es.
Qed.

Lemma cycle_exit_codes_witness :
  result (buildAndSync Sample.working 1 Sample.options Sample.no_entrypoint)
    = Exited 9 /\
  result (buildAndSync Sample.empty_build 1 Sample.options Sample.project)
    = Exited 1 /\
  result (buildAndSync Sample.refusing_twice 1 Sample.options Sample.project)
    = Thrown (Failure "bad credentials") /\
  In (Spin buildSpinner (Succeed "Built"))
     (events (buildAndSync Sample.offline 1 Sample.options Sample.project)).
Proof.
  destruct (cycle_exit_codes Sample.working 1 Sample.options
              Sample.no_entrypoint) as ([_ H1] & _).
  destruct (cycle_exit_codes Sample.empty_build 1 Sample.options
              Sample.project) as (_ & [_ H2] & _).
  destruct (cycle_exit_codes Sample.refusing_twice 1 Sample.options
              Sample.project) as (_ & _ & _ & _ & H3).
  destruct (cycle_exit_codes Sample.offline 1 Sample.options
              Sample.project) as (_ & _ & _ & H4 & _).
  split; [|split; [|split]].
  - apply H1. vm_compute; reflexivity.
  - apply H2. split; vm_compute; eauto.
  - apply (H3 Sample.bundle [] "bob" "hunter2");
      try (vm_compute; reflexivity); try discriminate.
    vm_compute; eauto.
  - apply (H4 (Failure "offline")). vm_compute; reflexivity.
Defined.

(** *** How often a cycle calls its collaborators *)

Lemma session_events_counts l :
  Forall (fun e => is_session_event e = true) l ->
  count_events is_build_call l = 0 /\
  count_events is_listing_call l = 0 /\
  count_events is_upload_call l = 0.
Proof.
  intros H. repeat split; apply count_events_zero;
    (eapply Forall_impl; [exact H|]); intros x Hx;
    now apply session_event_kinds in Hx.
Qed.

Lemma sync_stage_counts C d s w :
  count_events is_build_call (events (sync_stage C d s w)) = 0 /\
  count_events is_listing_call (events (sync_stage C d s w)) = 1 /\
  count_events is_upload_call (events (sync_stage C d s w)) <= 1.
Proof.
  rewrite sync_stage_spec. cbv zeta.
  destruct (getGames_reply C (listings (calls w)) (user_id s)) as [[|g gs]|e];
    cbn [events]; try (repeat split; cbn; lia).
  destruct (fs w !! d) as [code|]; cbn [events]; try (repeat split; cbn; lia).
  destruct (sendCode_reply C (uploads (calls w)) code (g :: gs) s) as [[|]|e];
    repeat split; cbn; lia.
Qed.

(** X8.  A cycle calls the bundler once when the entrypoint exists and
    not at all when it does not, always for the entrypoint of the options
    and with [minify] the negation of [noMinify]; it calls [getGames] at
    most once and [sendCode] at most once, and [sendCode] only when it has
    called [getGames]. *)
Theorem cycle_calls_once (C : Collab) (fuel : nat) (o : SyncOptions)
    (w : World) :
  let r := buildAndSync C fuel o w in
  count_events is_build_call (events r)
    = match fs w !! file o with Some _ => 1 | None => 0 end /\
  (forall entry minify rp,
      In (CallBuild entry minify rp) (events r) ->
      entry = file o /\ minify = negb (noMinify o)) /\
  count_events is_listing_call (events r) <= 1 /\
  count_events is_upload_call (events r)
    <= count_events is_listing_call (events r).
Proof.
  intros r. subst r.
  destruct (buildAndSync_shape C fuel o w)
    as [(Hf & _ & Hev) | [(e' & Hb & Hr & Hev) | (a & outs & l1 & Hb & Hl & Hc)]].
  - rewrite Hev, Hf. split; [reflexivity|]. split; [|cbn; lia].
    intros entry minify rp H. in_cases H.
  - rewrite Hev.
    assert (Hs : is_Some (fs w !! file o)).
    { destruct (fs w !! file o) eqn:Hf; [eauto|].
      rewrite (buildAndSync_missing C fuel o w Hf) in Hr. discriminate Hr. }
    destruct Hs as [t ->]. split; [reflexivity|]. split; [|cbn; lia].
    intros entry minify rp H. in_cases H. now injection H.
  - assert (Hs : is_Some (fs w !! file o)).
    { destruct (fs w !! file o) eqn:Hf; [eauto|].
      pose proof (buildAndSync_missing C fuel o w Hf) as Hm.
      destruct Hc as [[_ Hev] | (s & w1 & _ & Hrun)].
      - rewrite Hm in Hev. discriminate Hev.
      - rewrite Hm in Hrun. unfold after in Hrun. discriminate Hrun. }
    destruct Hs as [t ->].
    destruct (session_events_counts l1 Hl) as (Hc1 & Hc2 & Hc3).
    assert (Hl1 : forall e, In e l1 -> is_session_event e = true)
      by (now apply List.Forall_forall).
    destruct Hc as [[_ Hev] | (s & w1 & _ & Hrun)].
    + rewrite Hev. rewrite !count_events_app, Hc1, Hc2, Hc3.
      split; [reflexivity|]. split; [|cbn; lia].
      intros entry minify rp H. cbn [app In] in H. in_cases H.
      * now injection H.
      * apply Hl1 in H. discriminate H.
    + rewrite Hrun. unfold after; cbn [events].
      destruct (sync_stage_counts C (path a) s w1) as (Hs1 & Hs2 & Hs3).
      pose proof (sync_stage_produces C (path a) s w1) as Hsp.
      rewrite List.Forall_forall in Hsp.
      rewrite !count_events_app, Hc1, Hc2, Hc3, Hs1, Hs2.
      set (built := [Spin buildSpinner (Start None);
                     CallBuild (file o) (negb (noMinify o))
                       (build_reply C (builds (calls w)) (file o)
                          (negb (noMinify o)));
                     Spin buildSpinner (Succeed "Built")]) in *.
      change (count_events is_build_call built) with 1.
      change (count_events is_listing_call built) with 0.
      change (count_events is_upload_call built) with 0.
      split; [reflexivity|]. split; [|lia].
      intros entry minify rp H. subst built. rewrite <- app_assoc in H.
      cbn [app In] in H. in_cases H; [now injection H|].
      apply in_app_or in H as [H|H].
      * apply Hl1 in H. discriminate H.
      * apply Hsp in H as (H & _). discriminate H.
Qed.

Lemma cycle_calls_once_witness :
  count_events is_build_call
    (events (buildAndSync Sample.working 1 Sample.options Sample.project)) = 1 /\
  count_events is_build_call
    (events (buildAndSync Sample.working 1 Sample.options Sample.no_entrypoint))
    = 0.
Proof.
  destruct (cycle_calls_once Sample.working 1 Sample.options Sample.project)
    as [H1 _].
  destruct (cycle_calls_once Sample.working 1 Sample.options
              Sample.no_entrypoint) as [H2 _].
  split; [exact H1 | exact H2].
Defined.

(** *** Errors after the build *)

(** X9.  A session file whose text is not JSON stops every cycle: once
    the build is done, reading the session throws, the [SyntaxError]
    leaves [buildAndSync], and there is no login attempt, no question to
    the user and no upload, with or without credentials in the
    environment. *)
Theorem corrupt_session_stops_cycle (C : Collab) (fuel : nat)
    (o : SyncOptions) (w : World) (a : Artifact) (outs : list Artifact)
    (t : string) :
  is_Some (fs w !! file o) ->
  build_reply C (builds (calls w)) (file o) (negb (noMinify o))
    = Returns (a :: outs) ->
  fs (built_world w (a :: outs)) !! SESSION_FILE_PATH C = Some t ->
  JSON_parse C t = None ->
  buildAndSync C fuel o w =
  MkRun (Thrown SyntaxError) (built_world w (a :: outs))
        [Spin buildSpinner (Start None);
         CallBuild (file o) (negb (noMinify o)) (Returns (a :: outs));
         Spin buildSpinner (Succeed "Built");
         Spin loginSpinner (Start None)].
Proof.
  intros Hf Hb Ht Hp.
  rewrite (buildAndSync_built C fuel o w a outs Hf Hb).
  erewrite bind_thrown; [reflexivity|].
  unfold session_stage.
  erewrite bind_done by reflexivity.
  erewrite bind_thrown
    by (rewrite getExistingSession_spec, Ht, Hp; reflexivity).
  reflexivity.
Qed.

Lemma corrupt_session_stops_cycle_witness :
  result (buildAndSync Sample.working 3 Sample.options
            (Sample.world_of
               (<[Sample.session_path := "not json"]> Sample.with_source)
               Sample.creds_env))
  = Thrown SyntaxError.
Proof.
  rewrite (corrupt_session_stops_cycle Sample.working 3 Sample.options _
             Sample.bundle [] "not json");
    try (vm_compute; reflexivity).
  vm_compute. eauto.
Defined.

(** X10.  An exception thrown by [getGames] or by [sendCode] is not
    caught: it leaves [buildAndSync], the call that threw is the last
    event of the cycle (no success and no failure is reported by the sync
    spinner), and after a throwing [getGames] nothing is uploaded. *)
Theorem sync_errors_propagate (C : Collab) (fuel : nat) (o : SyncOptions)
    (w : World) (e : Exn) :
  let r := buildAndSync C fuel o w in
  (forall uid,
      In (CallGetGames uid (Raises e)) (events r) ->
      result r = Thrown e /\
      last (events r) = Some (CallGetGames uid (Raises e)) /\
      count_events is_upload_call (events r) = 0) /\
  (forall code gs s,
      In (CallSendCode code gs s (Raises e)) (events r) ->
      result r = Thrown e /\
      last (events r) = Some (CallSendCode code gs s (Raises e))).
Proof.
  intros r. subst r. split.
  - intros uid He.
    destruct (buildAndSync_reaches_sync C fuel o w _ He eq_refl)
      as (a & s & w1 & pre & Hrun & Hpre & Hin).
    rewrite Hrun. clear He Hrun. unfold after; cbn [result events].
    rewrite sync_stage_spec in Hin |- *. cbv zeta in Hin |- *.
    destruct (getGames_reply C (listings (calls w1)) (user_id s))
      as [[|g gs]|e']; cbn [events result] in Hin |- *.
    + in_cases Hin.
    + destruct (fs w1 !! path a) as [code|]; cbn [events app] in Hin;
        [|in_cases Hin].
      destruct (sendCode_reply C (uploads (calls w1)) code (g :: gs) s)
        as [[|]|e'']; in_cases Hin.
    + in_cases Hin. injection Hin as -> ->.
      split; [reflexivity|]. split.
      * now rewrite last_app.
      * rewrite count_events_app, Hpre. reflexivity.
  - intros code gs s He.
    destruct (buildAndSync_reaches_sync C fuel o w _ He eq_refl)
      as (a & s' & w1 & pre & Hrun & Hpre & Hin).
    rewrite Hrun. clear He Hrun. unfold after; cbn [result events].
    rewrite sync_stage_spec in Hin |- *. cbv zeta in Hin |- *.
    destruct (getGames_reply C (listings (calls w1)) (user_id s'))
      as [[|g gs']|e']; cbn [events result] in Hin |- *.
    + in_cases Hin.
    + destruct (fs w1 !! path a) as [code'|];
        cbn [events result app] in Hin |- *; [|in_cases Hin].
      destruct (sendCode_reply C (uploads (calls w1)) code' (g :: gs') s')
        as [[|]|e'']; in_cases Hin.
      injection Hin as -> <- -> ->.
      split; [reflexivity|]. now rewrite last_app.
    + in_cases Hin.
Qed.

Lemma sync_errors_propagate_witness :
  result (buildAndSync
            Sample.offline
            1 Sample.options Sample.project)
  = Thrown (Failure "offline").
Proof.
  destruct (sync_errors_propagate
              Sample.offline
              1 Sample.options Sample.project (Failure "offline")) as [H _].
  apply (H "bob"). vm_compute. repeat (first [left; reflexivity | right]).
Defined.

(** X11.  What is uploaded is the bundle: in a cycle that calls
    [sendCode], the code it sends is the text of the first output the
    bundler returned, provided that no later output has the path of the
    first and that this path is neither the session file nor the env
    file (the files written between the build and the upload). *)
Theorem uploaded_code_is_first_output (C : Collab) (fuel : nat)
    (o : SyncOptions) (w : World) (code : string) (gs : list Game)
    (s : Session) (rp : Reply bool) :
  In (CallSendCode code gs s rp) (events (buildAndSync C fuel o w)) ->
  exists a outs,
    build_reply C (builds (calls w)) (file o) (negb (noMinify o))
      = Returns (a :: outs) /\
    (Forall (fun b => path b <> path a) outs ->
     path a <> SESSION_FILE_PATH C ->
     path a <> path_resolve C "." (env o) ->
     code = body a).
Proof.
  intros He.
  destruct (buildAndSync_shape C fuel o w)
    as [(_ & _ & Hev) | [(e' & _ & _ & Hev) | (a & outs & l1 & Hb & Hl & Hc)]].
  - rewrite Hev in He. in_cases He.
  - rewrite Hev in He. in_cases He.
  - exists a, outs. split; [exact Hb|]. intros Ho Hp1 Hp2.
    assert (Hl1 : forall e, In e l1 -> is_session_event e = true)
      by (now apply List.Forall_forall).
    destruct Hc as [[_ Hev] | (s' & w1 & Hss & Hrun)].
    + rewrite Hev in He. cbn [app In] in He. in_cases He.
      apply Hl1 in He. discriminate He.
    + rewrite Hrun in He. unfold after in He; cbn [events] in He.
      rewrite <- app_assoc in He. cbn [app In] in He. in_cases He.
      apply in_app_or in He as [He|He]; [apply Hl1 in He; discriminate He|].
      assert (Hfs : fs w1 !! path a = Some (body a)).
      { pose proof (session_stage_changes_only C fuel (env o)
                      (built_world w (a :: outs))) as (_ & Hfr & _).
        rewrite Hss in Hfr. cbn [world] in Hfr. rewrite Hfr.
        - unfold built_world; cbn [fs with_fs with_calls].
          now apply write_outputs_first.
        - intros [H|H]; congruence. }
      rewrite sync_stage_spec in He. cbv zeta in He.
      destruct (getGames_reply C (listings (calls w1)) (user_id s'))
        as [[|g gs']|e']; cbn [events] in He; try (in_cases He).
      rewrite Hfs in He. cbn [events app] in He.
      destruct (sendCode_reply C (uploads (calls w1)) (body a) (g :: gs') s')
        as [[|]|e'']; in_cases He; now injection He.
Qed.

Lemma uploaded_code_is_first_output_witness :
  exists a outs,
    build_reply Sample.working (builds (calls Sample.project))
      (file Sample.options) (negb (noMinify Sample.options))
      = Returns (a :: outs) /\
    (Forall (fun b => path b <> path a) outs ->
     path a <> SESSION_FILE_PATH Sample.working ->
     path a <> path_resolve Sample.working "." (env Sample.options) ->
     "code" = body a).
Proof.
  apply (uploaded_code_is_first_output Sample.working 1 Sample.options
           Sample.project "code" Sample.two_games Sample.bob (Returns true)).
  vm_compute. repeat (first [left; reflexivity | right]).
Defined.

(** *** From one cycle to the next *)

(** The session stage leaves the session it returns on disk: it was read
    from the session file and verified, or it has just been written. *)
Lemma session_stage_leaves_session C fuel envf w s :
  result (session_stage C fuel envf w) = Done s ->
  exists t,
    fs (world (session_stage C fuel envf w)) !! SESSION_FILE_PATH C = Some t /\
    ((JSON_parse C t = Some s /\ verifySession C s = true) \/
     In (FsWrite (SESSION_FILE_PATH C) t) (events (session_stage C fuel envf w))).
Proof.
  assert (Hlogin :
    getExistingSession C w = MkRun (Done None) w [] ->
    result (session_stage C fuel envf w) = Done s ->
    exists t,
      fs (world (session_stage C fuel envf w)) !! SESSION_FILE_PATH C = Some t /\
      ((JSON_parse C t = Some s /\ verifySession C s = true) \/
       In (FsWrite (SESSION_FILE_PATH C) t)
          (events (session_stage C fuel envf w)))).
  { intros Hg. rewrite (session_stage_login C fuel envf w Hg).
    unfold after; cbn [result world events].
    destruct (login C fuel envf (Some loginSpinner) w) as [r w1 l1] eqn:E.
    destruct r as [s'|e|c|].
    - erewrite bind_done by exact E.
      erewrite bind_done by reflexivity.
      unfold after; cbn [result world events ret]. intros [= <-].
      assert (Hd : result (login C fuel envf (Some loginSpinner) w) = Done s')
        by now rewrite E.
      destruct (login_done_persists C fuel envf _ w s' Hd) as [Hw Hfs].
      rewrite E in Hfs, Hw. cbn [world events] in Hfs, Hw.
      exists (JSON_stringify C s'). split; [exact Hfs|]. right.
      apply in_or_app. right. apply in_or_app. left.
      apply (List.filter_In (is_session_write C)). rewrite Hw. now left.
    - erewrite bind_thrown by exact E. discriminate.
    - erewrite bind_exited by exact E. discriminate.
    - erewrite bind_out_of_fuel by exact E. discriminate. }
  pose proof (getExistingSession_spec C w) as Hg.
  destruct (fs w !! SESSION_FILE_PATH C) as [t|] eqn:Hf.
  - destruct (JSON_parse C t) as [s0|] eqn:Hp.
    + destruct (verifySession C s0) eqn:Hv.
      * rewrite (session_stage_cached C fuel envf w t s0 Hf Hp Hv).
        cbn [result world]. intros [= <-].
        exists t. split; [exact Hf | left; auto].
      * apply Hlogin, Hg.
    + unfold session_stage.
      erewrite bind_done by reflexivity.
      erewrite bind_thrown by exact Hg. discriminate.
  - apply Hlogin, Hg.
Qed.

(** A cycle whose session file holds a session that verifies, once the
    build is done. *)
Lemma buildAndSync_cached_run C fuel o w a outs t s :
  is_Some (fs w !! file o) ->
  build_reply C (builds (calls w)) (file o) (negb (noMinify o))
    = Returns (a :: outs) ->
  fs (built_world w (a :: outs)) !! SESSION_FILE_PATH C = Some t ->
  JSON_parse C t = Some s ->
  verifySession C s = true ->
  buildAndSync C fuel o w =
  after [Spin buildSpinner (Start None);
         CallBuild (file o) (negb (noMinify o)) (Returns (a :: outs));
         Spin buildSpinner (Succeed "Built");
         Spin loginSpinner (Start None);
         Spin loginSpinner
              (Succeed ("Logged in as " +:+ chalk C [green; bold] (user_id s)))]
        (sync_stage C (path a) s (built_world w (a :: outs))).
Proof.
  intros Hf Hb Ht Hp Hv.
  rewrite (buildAndSync_built C fuel o w a outs Hf Hb).
  erewrite bind_done by (eapply session_stage_cached; eassumption).
  now rewrite after_after.
Qed.

Lemma cached_run_asks_nothing C d s w (pre : list Event) :
  count_events is_login_call pre = 0 ->
  count_events is_interaction pre = 0 ->
  count_events is_login_call (events (after pre (sync_stage C d s w))) = 0 /\
  count_events is_interaction (events (after pre (sync_stage C d s w))) = 0.
Proof.
  intros H1 H2. unfold after; cbn [events].
  pose proof (sync_stage_produces C d s w) as Hs.
  rewrite !count_events_app, H1, H2. split.
  - rewrite count_events_zero; [reflexivity|].
    eapply Forall_impl; [exact Hs|]. now intros x (_ & Hx & _).
  - rewrite count_events_zero; [reflexivity|].
    eapply Forall_impl; [exact Hs|]. now intros x (_ & _ & Hx).
Qed.

Lemma session_write_recorded C t l :
  In (FsWrite (SESSION_FILE_PATH C) t) l ->
  In (FsWrite (SESSION_FILE_PATH C) t) (List.filter (is_session_write C) l).
Proof.
  intros H. apply List.filter_In. split; [exact H|].
  unfold is_session_write. apply String.eqb_refl.
Qed.

(** X12.  A cycle that returns leaves a session on disk, so the next
    cycle does not log in again.  Assumed: what the first cycle wrote to
    the session file, if it wrote it, reads back as a session that passes
    [verifySession], and the second build returns outputs, none of them
    written over the session file.  Then the second cycle, run in the
    world the first one left, calls [sync.login] zero times and asks the
    user nothing. *)
Theorem next_cycle_reuses_session (C : Collab) (fuel fuel' : nat)
    (o : SyncOptions) (w : World) (a : Artifact) (outs : list Artifact) :
  let r := buildAndSync C fuel o w in
  result r = Done tt ->
  (forall t, In (FsWrite (SESSION_FILE_PATH C) t) (events r) ->
             exists s, JSON_parse C t = Some s /\ verifySession C s = true) ->
  build_reply C (builds (calls (world r))) (file o) (negb (noMinify o))
    = Returns (a :: outs) ->
  Forall (fun b => path b <> SESSION_FILE_PATH C) (a :: outs) ->
  count_events is_login_call (events (buildAndSync C fuel' o (world r))) = 0 /\
  count_events is_interaction (events (buildAndSync C fuel' o (world r))) = 0.
Proof.
  intros r Hr Hvalid Hb Hno.
  assert (Hsess : exists t s,
             fs (world r) !! SESSION_FILE_PATH C = Some t /\
             JSON_parse C t = Some s /\ verifySession C s = true).
  { subst r.
    destruct (buildAndSync_shape C fuel o w)
      as [(_ & Hx & _) | [(e' & _ & Hx & _) | (a1 & outs1 & l1 & _ & _ & Hc)]];
      try (rewrite Hx in Hr; discriminate Hr).
    destruct Hc as [[Hx _] | (s & w1 & Hss & Hrun)];
      [now destruct (Hx tt)|].
    assert (Hd : result (session_stage C fuel (env o)
                           (built_world w (a1 :: outs1))) = Done s)
      by now rewrite Hss.
    destruct (session_stage_leaves_session C fuel (env o) _ s Hd)
      as (t & Ht & Hcase).
    rewrite Hss in Ht, Hcase. cbn [world events] in Ht, Hcase.
    assert (Hfs : fs (world (buildAndSync C fuel o w)) !! SESSION_FILE_PATH C
                  = Some t).
    { rewrite Hrun. unfold after; cbn [world].
      rewrite (same_except_nothing _ _
                 (sync_stage_changes_nothing C (path a1) s w1)).
      exact Ht. }
    destruct Hcase as [[Hp Hv] | Hin]; [now exists t, s|].
    destruct (Hvalid t) as (s' & Hp & Hv); [|now exists t, s'].
    rewrite Hrun. unfold after; cbn [events].
    apply in_or_app. left. apply in_or_app. now right. }
  destruct Hsess as (t & s & Ht & Hp & Hv).
  assert (Hf : is_Some (fs (world r) !! file o)).
  { subst r. destruct (fs w !! file o) eqn:Hf.
    - apply cycle_keeps_files. rewrite Hf. eauto.
    - rewrite (buildAndSync_missing C fuel o w Hf) in Hr. discriminate Hr. }
  rewrite (buildAndSync_cached_run C fuel' o (world r) a outs t s Hf Hb);
    try assumption.
  - now apply cached_run_asks_nothing.
  - rewrite built_world_keeps by exact Hno. exact Ht.
Qed.

Lemma next_cycle_reuses_session_witness :
  count_events is_login_call
    (events (buildAndSync Sample.refusing_twice 3 Sample.options Sample.watched))
    = 3 /\
  count_events is_login_call
    (events (buildAndSync Sample.refusing_twice 0 Sample.options
               (world (buildAndSync Sample.refusing_twice 3 Sample.options
                         Sample.watched)))) = 0.
Proof.
  split; [vm_compute; reflexivity|].
  apply (next_cycle_reuses_session Sample.refusing_twice 3 0 Sample.options
           Sample.watched Sample.bundle []).
  - vm_compute; reflexivity.
  - intros t Ht.
    assert (Hw : In (FsWrite (SESSION_FILE_PATH Sample.refusing_twice) t)
                    [FsWrite (SESSION_FILE_PATH Sample.refusing_twice)
                             (JSON_stringify Sample.refusing_twice Sample.typed)]).
    { apply (session_write_recorded Sample.refusing_twice) in Ht.
      replace (List.filter (is_session_write Sample.refusing_twice)
                 (events (buildAndSync Sample.refusing_twice 3 Sample.options
                            Sample.watched)))
        with [FsWrite (SESSION_FILE_PATH Sample.refusing_twice)
                      (JSON_stringify Sample.refusing_twice Sample.typed)]
        in Ht by (vm_compute; reflexivity).
      exact Ht. }
    destruct Hw as [Hw|[]]. injection Hw as <-.
    exists Sample.typed. split; vm_compute; reflexivity.
  - vm_compute; reflexivity.
  - repeat constructor. vm_compute; discriminate.
Defined.

(** *** Asking the user *)

Lemma count_opt_spin p sp op :
  (forall s, p (Spin s op) = false) -> count_events p (opt_spin sp op) = 0.
Proof. intros H. destruct sp; [|reflexivity]. cbn. now rewrite H. Qed.

(** In the retry loop there are two prompts for every login call. *)
Lemma login_loop_prompts C sp :
  forall fuel w,
    count_events is_interaction (events (login_loop C fuel sp w))
    = 2 * count_events is_login_call (events (login_loop C fuel sp w)).
Proof.
  induction fuel as [|fuel IH]; intros w; [reflexivity|].
  destruct (attempt_reply C w 0) as [s|e] eqn:E.
  - now rewrite (login_loop_round_ok C fuel sp w s E).
  - rewrite (login_loop_round_fails C fuel sp w e E).
    unfold after; cbn [events].
    rewrite !count_events_app, IH, !count_opt_spin by reflexivity.
    cbn. lia.
Qed.

(** The retry loop leaves the selection counter alone. *)
Lemma login_loop_selections C sp :
  forall fuel w,
    selections (calls (world (login_loop C fuel sp w))) = selections (calls w).
Proof.
  induction fuel as [|fuel IH]; intros w; [reflexivity|].
  destruct (attempt_reply C w 0) as [s|e] eqn:E.
  - now rewrite (login_loop_round_ok C fuel sp w s E).
  - rewrite (login_loop_round_fails C fuel sp w e E).
    unfold after; cbn [world]. now rewrite IH.
Qed.

(** The run of an interactive [login] whose loop is cut off. *)
Lemma login_interactive_cut_off_run C fuel envf sp w w1 l1 :
  interactive_mode w = true ->
  login_loop C fuel sp w = MkRun OutOfFuel w1 l1 ->
  login C fuel envf sp w =
  MkRun OutOfFuel w1
        (opt_spin sp (Warn "Couldn't find login credentials.") ++ l1).
Proof.
  unfold interactive_mode. intros Hi Hl. unfold login.
  erewrite bind_done by reflexivity.
  erewrite bind_done by reflexivity.
  rewrite Hi.
  erewrite bind_done by apply spin_opt_spec.
  erewrite bind_out_of_fuel by exact Hl.
  reflexivity.
Qed.





(** X14.  What [login] asks: every prompt is the user name prompt, shown
    in clear, or the password prompt, masked.  In interactive mode the
    user is asked for both before every call to [sync.login], and the
    only other question is the one selection after the login was
    accepted: it has been asked when [login] returns a session and also
    when [login] throws, which in this mode only saving the credentials
    does. *)
Theorem login_questions (C : Collab) (fuel : nat) (envf : string)
    (sp : option Ora) (w : World) :
  let r := login C fuel envf sp w in
  Forall prompt_as_written (events r) /\
  (interactive_mode w = true ->
   count_events is_interaction (events r)
   = 2 * count_events is_login_call (events r)
     + match result r with Done _ | Thrown _ => 1 | _ => 0 end).
Proof.
  intros r. subst r. split.
  - assert (Hloop : produces prompt_as_written (login_loop C fuel sp)).
    { clear w. induction fuel as [|fuel IH]; cbn [login_loop];
        [auto with produces|].
      apply produces_bind.
      { unfold getCreds.
        apply produces_bind; [apply produces_createPrompt; cbn; auto|].
        intros u.
        apply produces_bind; [apply produces_createPrompt; cbn; auto|].
        intros p. apply produces_ret. }
      intros creds.
      apply produces_bind; [|intros [s|]; auto with produces].
      apply produces_try_catch.
      - apply produces_bind; [apply produces_sync_login; cbn; auto|].
        intros s. apply produces_ret.
      - intros e.
        apply produces_bind; [apply produces_console_error; exact I|].
        intros _.
        apply produces_bind; [apply produces_spin_opt; intros; exact I|].
        intros _. apply produces_ret. }
    revert w. change (produces prompt_as_written (login C fuel envf sp)).
    unfold login.
    apply produces_bind; [apply produces_Bun_env|]. intros yl.
    apply produces_bind; [apply produces_Bun_env|]. intros yp.
    destruct (negb (truthy yl) || negb (truthy yp)).
    + apply produces_bind; [apply produces_spin_opt; intros; exact I|].
      intros _. apply produces_bind; [exact Hloop|]. intros [[u p] s].
      apply produces_bind; [apply produces_spin_opt; intros; exact I|].
      intros _.
      apply produces_bind; [apply produces_createSelection; intros; exact I|].
      intros i. apply produces_bind.
      * destruct (Nat.eqb i 0);
          [apply produces_fs_appendFileSync; exact I | apply produces_ret].
      * intros _.
        apply produces_bind; [apply produces_saveSession; exact I|].
        intros _. apply produces_ret.
    + apply produces_bind; [apply produces_sync_login; intros; exact I|].
      intros s.
      apply produces_bind; [apply produces_saveSession; exact I|].
      intros _. apply produces_ret.
  - intros Hi.
    pose proof (login_loop_prompts C sp fuel w) as Hp.
    destruct (login_loop_ends C sp fuel w) as [[[[u p] s] Hx] | Hcut];
      destruct (login_loop C fuel sp w) as [r w1 l1] eqn:E;
      cbn [result events] in *; subst r.
    + destruct (save_creds_error C envf w1) as [e|] eqn:Ha.
      * rewrite (login_interactive_thrown C fuel envf sp w u p s w1 l1 e
                   Hi E Ha).
        cbn [events result].
        rewrite !count_events_app, Hp, !count_opt_spin by reflexivity.
        cbn. lia.
      * destruct (login_interactive_done C fuel envf sp w u p s w1 l1 Hi E Ha)
          as (w2 & Hrun & _).
        rewrite Hrun. cbn [events result]. unfold creds_saved.
        rewrite !count_events_app, Hp, !count_opt_spin by reflexivity.
        destruct (Nat.eqb (selection_reply C (selections (calls w1))) 0);
          cbn; lia.
    + rewrite (login_interactive_cut_off_run C fuel envf sp w w1 l1 Hi E).
      cbn [events result].
      rewrite !count_events_app, Hp, !count_opt_spin by reflexivity. lia.
Qed.

Lemma login_questions_witness :
  count_events is_interaction
    (events (login Sample.refusing_twice 3 ".env" None Sample.bare)) = 7 /\
  count_events is_interaction
    (events (login Sample.saving_nowhere 2 "conf/.env" None Sample.bare)) = 5.
Proof.
  split.
  - destruct (login_questions Sample.refusing_twice 3 ".env" None Sample.bare)
      as [_ H].
    rewrite H by (vm_compute; reflexivity). vm_compute; reflexivity.
  - destruct (login_questions Sample.saving_nowhere 2 "conf/.env" None
                Sample.bare) as [_ H].
    rewrite H by (vm_compute; reflexivity). vm_compute; reflexivity.
Defined.

(** Refused attempts and their reports in the retry loop. *)
Lemma login_loop_refused C s0 :
  forall fuel w,
    (forall k, k < fuel -> exists e, attempt_reply C w k = Raises e) ->
    result (login_loop C fuel (Some s0) w) = OutOfFuel /\
    count_events is_login_call (events (login_loop C fuel (Some s0) w)) = fuel /\
    count_events is_login_error_report
      (events (login_loop C fuel (Some s0) w)) = fuel.
Proof.
  induction fuel as [|fuel IH]; intros w Hfail.
  { repeat split. }
  destruct (Hfail 0) as [e He]; [lia|].
  rewrite (login_loop_round_fails C fuel (Some s0) w e He).
  destruct (IH (next_round w)) as (Hr & Hc & Hrep).
  { intros k Hk. rewrite attempt_reply_next. apply Hfail. lia. }
  unfold after; cbn [result events].
  rewrite !count_events_app, Hc, Hrep.
  split; [exact Hr|]. split; cbn; lia.
Qed.

(** X15.  The interactive retry has no limit.  However many attempts
    [sync.login] refuses, [login] does not give up: after that many
    rounds it has called [sync.login] that many times, reported that many
    errors on its spinner, written nothing to disk, and is still
    asking. *)
Theorem retry_has_no_limit (C : Collab) (rounds : nat) (envf : string)
    (sp : Ora) (w : World) :
  interactive_mode w = true ->
  (forall k, k < rounds -> exists e, attempt_reply C w k = Raises e) ->
  let r := login C rounds envf (Some sp) w in
  result r = OutOfFuel /\
  count_events is_login_call (events r) = rounds /\
  count_events is_login_error_report (events r) = rounds /\
  fs (world r) = fs w.
Proof.
  intros Hi Hfail r. subst r.
  destruct (login_loop_refused C sp rounds w Hfail) as (Hr & Hc & Hrep).
  pose proof (same_except_nothing _ _
                (login_loop_changes_nothing C rounds (Some sp) w)) as Hfs.
  destruct (login_loop C rounds (Some sp) w) as [r w1 l1] eqn:E.
  cbn [result events world] in *. subst r.
  rewrite (login_interactive_cut_off_run C rounds envf (Some sp) w w1 l1 Hi E).
  cbn [result events world].
  rewrite !count_events_app, Hc, Hrep. repeat split; assumption.
Qed.

Lemma retry_has_no_limit_witness :
  result (login Sample.refusing_twice 2 ".env" (Some loginSpinner) Sample.bare)
    = OutOfFuel /\
  count_events is_login_call
    (events (login Sample.refusing_twice 2 ".env" (Some loginSpinner)
               Sample.bare)) = 2.
Proof.
  destruct (retry_has_no_limit Sample.refusing_twice 2 ".env" loginSpinner
              Sample.bare) as (H1 & H2 & _).
  - vm_compute; reflexivity.
  - intros k Hk. exists (Failure "bad credentials").
    assert (Hk' : k = 0 \/ k = 1) by lia.
    destruct Hk' as [-> | ->]; vm_compute; reflexivity.
  - split; assumption.
Defined.

(** *** The [sync] command *)

Lemma no_watch_in_cycle d rec l : ~ In (FsWatch d rec) (map InCycle l).
Proof.
  intros H. apply in_map_iff in H as (e & He & _). discriminate He.
Qed.

Lemma no_watch_before_end (b : bool) d rec l :
  ~ In (FsWatch d rec) ((if b then [ClearTerminal] else []) ++ map InCycle l).
Proof.
  intros H. apply in_app_or in H as [H|H].
  - destruct b; [destruct H as [H|H]; [discriminate H|]|]; contradiction H.
  - revert H. apply no_watch_in_cycle.
Qed.

(** A cycle in which [sendCode] returned a boolean has returned. *)
Lemma upload_returned_done C fuel o w code gs s b :
  In (CallSendCode code gs s (Returns b)) (events (buildAndSync C fuel o w)) ->
  result (buildAndSync C fuel o w) = Done tt.
Proof.
  intros He.
  destruct (buildAndSync_reaches_sync C fuel o w _ He eq_refl)
    as (a & s' & w1 & pre & Hrun & _ & Hin).
  rewrite Hrun. unfold after; cbn [result].
  rewrite sync_stage_spec in Hin |- *. cbv zeta in Hin |- *.
  destruct (getGames_reply C (listings (calls w1)) (user_id s'))
    as [[|g gs']|e]; cbn [events result] in Hin |- *.
  - reflexivity.
  - destruct (fs w1 !! path a) as [code'|];
      cbn [events result app] in Hin |- *; [|in_cases Hin].
    destruct (sendCode_reply C (uploads (calls w1)) code' (g :: gs') s')
      as [[|]|e]; try reflexivity. in_cases Hin.
  - in_cases Hin.
Qed.

(** X16.  The watch.  The command subscribes to the watch directory
    exactly when [--watch] was given, the first cycle has returned, and
    the directory exists; the subscription is recursive and is the last
    thing the action does.  In particular an upload that [sendCode]
    reports as failed does not keep the watch from starting. *)
Theorem watch_starts_after_cycle (C : Collab) (dirs : gset string)
    (fuel : nat) (o : SyncOptions) (w : World) :
  let r := buildAndSync C fuel o w in
  let cr := sync_command C dirs fuel o w in
  ((exists d rec, In (FsWatch d rec) (trace cr)) <->
   watch o = true /\ result r = Done tt /\
   fs_existsSync dirs (watchDir o) (world r) = true) /\
  (forall d rec, In (FsWatch d rec) (trace cr) ->
     d = watchDir o /\ rec = true /\
     last (trace cr) = Some (FsWatch d rec) /\ outcome cr = Done tt) /\
  (forall code gs s b,
     watch o = true -> watchDir o ∈ dirs ->
     In (CallSendCode code gs s (Returns b)) (events r) ->
     In (FsWatch (watchDir o) true) (trace cr)).
Proof.
  intros r cr.
  assert (Hchar : forall d rec, In (FsWatch d rec) (trace cr) ->
            watch o = true /\ result r = Done tt /\
            fs_existsSync dirs (watchDir o) (world r) = true /\
            d = watchDir o /\ rec = true /\
            last (trace cr) = Some (FsWatch d rec) /\ outcome cr = Done tt).
  { intros d rec. subst cr. unfold sync_command. fold r.
    destruct (result r) as [[]|e|c|] eqn:Hr; cbn [trace outcome];
      try (intros H; exfalso; revert H; apply no_watch_before_end).
    destruct (watch o) eqn:Hw;
      [|intros H; exfalso; revert H; apply (no_watch_before_end false)].
    destruct (fs_existsSync dirs (watchDir o) (world r)) eqn:Hx;
      cbn [trace outcome]; intros H.
    - rewrite last_app. cbn [last].
      apply in_app_or in H as [H|H].
      + exfalso. revert H. apply (no_watch_before_end true).
      + in_cases H. injection H as <- <-. auto 10.
    - exfalso. apply in_app_or in H as [H|H].
      + revert H. apply (no_watch_before_end true).
      + in_cases H. }
  assert (Hstart : watch o = true -> result r = Done tt ->
            fs_existsSync dirs (watchDir o) (world r) = true ->
            In (FsWatch (watchDir o) true) (trace cr)).
  { intros Hw Hr Hx. subst cr. unfold sync_command. fold r.
    rewrite Hr, Hw, Hx. cbn [trace]. apply in_or_app. right. cbn. auto. }
  split; [|split].
  - split.
    + intros (d & rec & H). apply Hchar in H. tauto.
    + intros (Hw & Hr & Hx). eauto.
  - intros d rec H. apply Hchar in H. tauto.
  - intros code gs s b Hw Hd Hin. apply Hstart; [exact Hw | |].
    + subst r. eapply upload_returned_done; exact Hin.
    + unfold fs_existsSync. now rewrite bool_decide_eq_true_2.
Qed.

Lemma watch_starts_after_cycle_witness :
  In (FsWatch "./src" true)
     (trace (sync_command Sample.rejecting {[ "./src" ]} 1 Sample.watching
               Sample.project)).
Proof.
  destruct (watch_starts_after_cycle Sample.rejecting {[ "./src" ]} 1
              Sample.watching Sample.project) as (_ & _ & H).
  apply (H "code" Sample.two_games Sample.bob false).
  - reflexivity.
  - vm_compute; reflexivity.
  - vm_compute. repeat (first [left; reflexivity | right]).
Defined.

(** X17.  How the action of the command ends other than by returning.
    It calls [process.exit] with code 9 when the entrypoint does not
    exist, and also when [--watch] was given, the first cycle has
    returned (so whatever it built and uploaded stays built and uploaded)
    and the watch directory does not exist; with code 1 when the bundler
    threw or returned no output; and in no other case.  The action
    catches nothing: an exception that leaves the first cycle leaves the
    action, as the same exception.  Whenever the action does not return,
    by [process.exit] or by an exception, there is no subscription. *)
Theorem command_exit_codes (C : Collab) (dirs : gset string) (fuel : nat)
    (o : SyncOptions) (w : World) :
  let r := buildAndSync C fuel o w in
  let cr := sync_command C dirs fuel o w in
  (forall c,
      outcome cr = Exited c ->
      (c = 9%Z /\ fs w !! file o = None) \/
      (c = 9%Z /\ watch o = true /\ result r = Done tt /\
       fs_existsSync dirs (watchDir o) (world r) = false /\
       forall e, In e (events r) -> In (InCycle e) (trace cr)) \/
      (c = 1%Z /\ is_Some (fs w !! file o) /\
       exists e,
         build_fault (build_reply C (builds (calls w)) (file o)
                        (negb (noMinify o))) = Some e)) /\
  (forall e, result r = Thrown e -> outcome cr = Thrown e) /\
  (outcome cr <> Done tt -> forall d rec, ~ In (FsWatch d rec) (trace cr)).
Proof.
  intros r cr. subst cr. unfold sync_command. fold r.
  destruct (result r) as [[]|e|c'|] eqn:Hr; cbn [outcome trace].
  - destruct (watch o) eqn:Hw.
    + destruct (fs_existsSync dirs (watchDir o) (world r)) eqn:Hx;
        cbn [outcome trace].
      * split; [discriminate|]. split; [discriminate|].
        intros Hn. now destruct Hn.
      * split; [|split; [discriminate|]].
        -- intros c [= <-]. right; left. repeat split; auto.
           intros e He. apply in_or_app. left. apply in_or_app. right.
           now apply in_map.
        -- intros _ d rec H. apply in_app_or in H as [H|H].
           ++ revert H. apply (no_watch_before_end true).
           ++ in_cases H.
    + split; [discriminate|]. split; [discriminate|].
      intros Hn. now destruct Hn.
  - split; [discriminate|]. split; [tauto|].
    intros _ d rec. apply no_watch_before_end.
  - split; [|split; [discriminate|]].
    + intros c [= <-]. subst r. apply buildAndSync_exit_cases in Hr
        as [[-> Hf] | (-> & Hf & He)]; [left | right; right]; auto.
    + intros _ d rec. apply no_watch_before_end.
  - split; [discriminate|]. split; [discriminate|].
    intros _ d rec. apply no_watch_before_end.
Qed.

Lemma command_exit_codes_witness :
  In (InCycle (CallSendCode "code" Sample.two_games Sample.bob (Returns true)))
     (trace (sync_command Sample.working Sample.project_dirs 1
               Sample.watching_elsewhere Sample.project)) /\
  outcome (sync_command Sample.refusing_twice Sample.project_dirs 1
             Sample.watching Sample.project)
    = Thrown (Failure "bad credentials") /\
  ~ In (FsWatch "./src" true)
       (trace (sync_command Sample.refusing_twice Sample.project_dirs 1
                 Sample.watching Sample.project)).
Proof.
  split; [|split].
  - destruct (command_exit_codes Sample.working Sample.project_dirs 1
                Sample.watching_elsewhere Sample.project) as (H & _).
    destruct (H 9%Z) as [[_ H9] | [(_ & _ & _ & _ & H9) | (H1 & _)]].
    + vm_compute; reflexivity.
    + exfalso. revert H9. vm_compute. discriminate.
    + apply H9. vm_compute. repeat (first [left; reflexivity | right]).
    + discriminate H1.
  - apply (proj1 (proj2 (command_exit_codes Sample.refusing_twice
                           Sample.project_dirs 1 Sample.watching
                           Sample.project))).
    vm_compute; reflexivity.
  - apply (proj2 (proj2 (command_exit_codes Sample.refusing_twice
                           Sample.project_dirs 1 Sample.watching
                           Sample.project))).
    vm_compute. discriminate.
Defined.
